(** * FileConfigurationManager: the configuration cache of coc-tsserver

    A shallow embedding of [src/server/features/fileConfigurationManager.ts]:
    the comparison [objAreEqual], the derivation of the backend-shaped
    snapshot ([getFormatOptions], [getPreferences] and their helpers) and the
    cache protocol ([ensureConfigurationOptions],
    [ensureConfigurationForDocument], the document-close handler, [reset]).

    JavaScript objects are insertion-ordered association lists with unique
    keys, the cache [Map<string, FileConfiguration>] is a [gmap], and the
    asynchronous methods run in a small state-and-exception monad whose state
    carries the cache, the number of requests the server has received and the
    trace of outbound calls.

    The second half of the source, the class [LanguageProvider], is embedded
    as far as it decides something: the filter of [diagnosticsReceived] and
    the registrations of [registerProviders]. *)

From Stdlib Require Import ZArith.
From stdpp Require Import gmap strings list fin_maps.

Local Open Scope string_scope.

(** ** JavaScript values and objects *)

(** The values the settings store and the snapshots hold.  The TypeScript
    annotations restrict them to booleans, integers (tab sizes) and strings;
    [undefined] and [null] are what an unset key reads as. *)
Inductive JsValue : Type :=
  | JUndefined
  | JNull
  | JBool (b : bool)
  | JNum (n : Z)
  | JStr (s : string).

(** [a === b] on these values. *)
Definition strict_eq (a b : JsValue) : bool :=
  match a, b with
  | JUndefined, JUndefined => true
  | JNull, JNull => true
  | JBool x, JBool y => Bool.eqb x y
  | JNum x, JNum y => Z.eqb x y
  | JStr x, JStr y => String.eqb x y
  | _, _ => false
  end.

(** [a !== b]. *)
Definition strict_ne (a b : JsValue) : bool := negb (strict_eq a b).

(** [v != lit] for a string literal [lit] that is not numeric (here 'auto'):
    loose equality converts a number or boolean operand to a number and the
    literal to NaN, and [null]/[undefined] are loosely equal only to each
    other, so only the same string compares equal. *)
Definition loose_ne_word (v : JsValue) (lit : string) : bool :=
  match v with
  | JStr s => negb (String.eqb s lit)
  | _ => true
  end.

(** Truthiness, as [!v] and [if (v)] see it. *)
Definition truthy (v : JsValue) : bool :=
  match v with
  | JUndefined | JNull => false
  | JBool b => b
  | JNum n => negb (Z.eqb n 0)
  | JStr s => negb (String.eqb s "")
  end.

(** A plain object: its own enumerable properties in insertion order. *)
Definition Obj : Type := list (string * JsValue).

(** [o[key]]: the value of the property, [undefined] when there is none. *)
Fixpoint obj_get (o : Obj) (key : string) : JsValue :=
  match o with
  | [] => JUndefined
  | (k, v) :: rest => if String.eqb key k then v else obj_get rest key
  end.

(** [o[key] = v]: an existing property keeps its place, a new one goes last. *)
Fixpoint obj_set (o : Obj) (key : string) (v : JsValue) : Obj :=
  match o with
  | [] => [(key, v)]
  | (k, w) :: rest =>
      if String.eqb key k then (k, v) :: rest else (k, w) :: obj_set rest key v
  end.

(** [Object.keys(o)]. *)
Definition Object_keys (o : Obj) : list string := map fst o.

(** An object literal [{ k1: v1, ..., ...spread }]: properties are defined
    left to right, a later one overriding an earlier one of the same name. *)
Definition obj_literal (props : list (string * JsValue)) : Obj :=
  fold_left (fun o p => obj_set o (fst p) (snd p)) props [].

(** ** objAreEqual *)

(** The loop of [objAreEqual]: [keys] is what remains of [Object.keys(a)]. *)
Fixpoint objAreEqual_loop (keys : list string) (a b : Obj) : bool :=
  match keys with
  | [] => true
  | key :: rest =>
      if strict_ne (obj_get a key) (obj_get b key) then false
      else objAreEqual_loop rest a b
  end.

Definition objAreEqual (a b : Obj) : bool :=
  objAreEqual_loop (Object_keys a) a b.

(** ** The collaborators: API versions, the settings store, the client *)

(** Modelled from the spec: the class [API] of [../utils/api] is not part of
    the sources at hand.  A version is a semantic version, versions are
    monotonically ordered, [gte] is the order and [lt] its complement; the
    thresholds [v290] and [v333] are the versions 2.9.0 and 3.3.3. *)
Record API : Type := mkAPI { major : nat; minor : nat; patch : nat }.

Module APIv.
Definition gte (this other : API) : bool :=
  if Nat.ltb (major other) (major this) then true
  else if Nat.ltb (major this) (major other) then false
  else if Nat.ltb (minor other) (minor this) then true
  else if Nat.ltb (minor this) (minor other) then false
  else Nat.leb (patch other) (patch this).

Definition lt (this other : API) : bool := negb (gte this other).

Definition v290 : API := mkAPI 2 9 0.
Definition v333 : API := mkAPI 3 3 3.
End APIv.

(** Modelled from the spec: [WorkspaceConfiguration] belongs to coc.nvim.
    It is a read-only view of one settings section; [get(key)] is the stored
    value or [undefined], [get(key, default)] replaces an unset value by the
    default. *)
Record WorkspaceConfiguration : Type :=
  mkConfig { cfg_lookup : string -> JsValue }.

Definition config_get (c : WorkspaceConfiguration) (key : string) : JsValue :=
  cfg_lookup c key.

Definition config_get_or (c : WorkspaceConfiguration) (key : string)
    (default : JsValue) : JsValue :=
  match cfg_lookup c key with
  | JUndefined => default
  | v => v
  end.

(** The editor's indentation facts for a document. *)
Record FormatOptions : Type :=
  mkFormatOptions { tabSize : JsValue; insertSpaces : JsValue }.

(** [workspace]: the settings store, queried by section and (optional)
    resource, and the editor's format options per document. *)
Record Workspace : Type := mkWorkspace {
  getConfiguration : string -> option string -> WorkspaceConfiguration;
  ws_getFormatOptions : string -> FormatOptions
}.

Record TextDocument : Type := mkDocument { uri : string; languageId : string }.

Record FileConfiguration : Type :=
  mkFileConfiguration { formatOptions : Obj; preferences : Obj }.

(** The setting names of the inlay hints, a class of static strings. *)
Module InlayHintSettingNames.
Definition parameterNamesSuppressWhenArgumentMatchesName :=
  "inlayHints.parameterNames.suppressWhenArgumentMatchesName".
Definition parameterNamesEnabled := "inlayHints.parameterTypes.enabled".
Definition variableTypesEnabled := "inlayHints.variableTypes.enabled".
Definition propertyDeclarationTypesEnabled :=
  "inlayHints.propertyDeclarationTypes.enabled".
Definition functionLikeReturnTypesEnabled :=
  "inlayHints.functionLikeReturnTypes.enabled".
Definition enumMemberValuesEnabled := "inlayHints.enumMemberValues.enabled".
End InlayHintSettingNames.

(** ** Derivation of the snapshot *)

Section Derivation.
Variable workspace : Workspace.
Variable apiVersion : API.

Definition isTypeScriptDocument (languageId : string) : bool :=
  String.prefix "typescript" languageId.

Definition getFormatOptions (options : FormatOptions) (language uri : string)
    : Obj :=
  let config := getConfiguration workspace (language ++ ".format") (Some uri) in
  obj_literal
    [ ("tabSize", tabSize options);
      ("indentSize", tabSize options);
      ("convertTabsToSpaces", insertSpaces options);
      ("newLineCharacter", JStr (String (Ascii.ascii_of_nat 10) ""));
      ("insertSpaceAfterCommaDelimiter",
        config_get config "insertSpaceAfterCommaDelimiter");
      ("insertSpaceAfterConstructor",
        config_get config "insertSpaceAfterConstructor");
      ("insertSpaceAfterSemicolonInForStatements",
        config_get config "insertSpaceAfterSemicolonInForStatements");
      ("insertSpaceBeforeAndAfterBinaryOperators",
        config_get config "insertSpaceBeforeAndAfterBinaryOperators");
      ("insertSpaceAfterKeywordsInControlFlowStatements",
        config_get config "insertSpaceAfterKeywordsInControlFlowStatements");
      ("insertSpaceAfterFunctionKeywordForAnonymousFunctions",
        config_get config "insertSpaceAfterFunctionKeywordForAnonymousFunctions");
      ("insertSpaceBeforeFunctionParenthesis",
        config_get config "insertSpaceBeforeFunctionParenthesis");
      ("insertSpaceAfterOpeningAndBeforeClosingNonemptyParenthesis",
        config_get config "insertSpaceAfterOpeningAndBeforeClosingNonemptyParenthesis");
      ("insertSpaceAfterOpeningAndBeforeClosingNonemptyBrackets",
        config_get config "insertSpaceAfterOpeningAndBeforeClosingNonemptyBrackets");
      ("insertSpaceAfterOpeningAndBeforeClosingEmptyBraces",
        config_get config "insertSpaceAfterOpeningAndBeforeClosingEmptyBraces");
      ("insertSpaceAfterOpeningAndBeforeClosingNonemptyBraces",
        config_get config "insertSpaceAfterOpeningAndBeforeClosingNonemptyBraces");
      ("insertSpaceAfterOpeningAndBeforeClosingTemplateStringBraces",
        config_get config "insertSpaceAfterOpeningAndBeforeClosingTemplateStringBraces");
      ("insertSpaceAfterOpeningAndBeforeClosingJsxExpressionBraces",
        config_get config "insertSpaceAfterOpeningAndBeforeClosingJsxExpressionBraces");
      ("insertSpaceAfterTypeAssertion",
        config_get config "insertSpaceAfterTypeAssertion");
      ("placeOpenBraceOnNewLineForFunctions",
        config_get config "placeOpenBraceOnNewLineForFunctions");
      ("placeOpenBraceOnNewLineForControlBlocks",
        config_get config "placeOpenBraceOnNewLineForControlBlocks");
      ("semicolons", config_get_or config "semicolons" JUndefined) ].

Record SuggestOptions : Type := mkSuggestOptions {
  enabled : JsValue;
  names : JsValue;
  paths : JsValue;
  completeFunctionCalls : JsValue;
  autoImports : JsValue;
  includeAutomaticOptionalChainCompletions : JsValue;
  importStatementSuggestions : JsValue;
  includeCompletionsForImportStatements : JsValue;
  includeCompletionsWithSnippetText : JsValue;
  includeCompletionsWithClassMemberSnippets : JsValue;
  generateReturnInDocTemplate : JsValue;
  includeCompletionsWithObjectLiteralMethodSnippets : JsValue
}.

Definition getCompleteOptions (languageId : string) : SuggestOptions :=
  let lang := if isTypeScriptDocument languageId then "typescript" else "javascript" in
  let config := getConfiguration workspace (lang ++ ".suggest") None in
  {| enabled := config_get_or config "enabled" (JBool true);
     names := config_get_or config "names" (JBool true);
     paths := config_get_or config "paths" (JBool true);
     completeFunctionCalls := config_get_or config "completeFunctionCalls" (JBool true);
     autoImports := config_get_or config "autoImports" (JBool true);
     includeCompletionsWithObjectLiteralMethodSnippets :=
       config_get_or config "suggest.objectLiteralMethodSnippets.enabled" (JBool true);
     generateReturnInDocTemplate :=
       config_get_or config "jsdoc.generateReturns" (JBool true);
     importStatementSuggestions :=
       config_get_or config "importStatements" (JBool true);
     includeCompletionsForImportStatements :=
       config_get_or config "includeCompletionsForImportStatements" (JBool true);
     includeCompletionsWithSnippetText :=
       config_get_or config "includeCompletionsWithSnippetText" (JBool true);
     includeCompletionsWithClassMemberSnippets :=
       config_get_or config "classMemberSnippets.enabled" (JBool true);
     includeAutomaticOptionalChainCompletions :=
       config_get_or config "includeAutomaticOptionalChainCompletions" (JBool true) |}.

Definition getQuoteStyle (config : WorkspaceConfiguration) : JsValue :=
  let quoteStyle := config_get_or config "quoteStyle" (JStr "auto") in
  if APIv.gte apiVersion APIv.v333 || loose_ne_word quoteStyle "auto"
  then quoteStyle
  else JStr "single".

Definition getImportModuleSpecifier (config : WorkspaceConfiguration) : JsValue :=
  let val := config_get config "importModuleSpecifier" in
  if strict_eq val (JStr "project-relative") then JStr "project-relative"
  else if strict_eq val (JStr "relative") then JStr "relative"
  else if strict_eq val (JStr "non-relative") then JStr "non-relative"
  else JUndefined.

Definition getImportModuleSpecifierEndingPreference
    (config : WorkspaceConfiguration) : JsValue :=
  let val := config_get config "importModuleSpecifierEnding" in
  if strict_eq val (JStr "minimal") then JStr "minimal"
  else if strict_eq val (JStr "index") then JStr "index"
  else if strict_eq val (JStr "js") then JStr "js"
  else JStr "auto".

Definition getJsxAttributeCompletionStyle (config : WorkspaceConfiguration)
    : JsValue :=
  let val := config_get config "jsxAttributeCompletionStyle" in
  if strict_eq val (JStr "braces") then JStr "braces"
  else if strict_eq val (JStr "none") then JStr "none"
  else JStr "auto".

Definition getInlayParameterNameHintsPreference
    (config : WorkspaceConfiguration) : JsValue :=
  let val := config_get config "inlayHints.parameterNames.enabled" in
  if strict_eq val (JStr "none") then JStr "none"
  else if strict_eq val (JStr "literals") then JStr "literals"
  else if strict_eq val (JStr "all") then JStr "all"
  else JUndefined.

Definition getInlayHintsPreferences (config : WorkspaceConfiguration)
    : list (string * JsValue) :=
  [ ("includeInlayParameterNameHints",
      getInlayParameterNameHintsPreference config);
    ("includeInlayParameterNameHintsWhenArgumentMatchesName",
      JBool (negb (truthy (config_get_or config
        InlayHintSettingNames.parameterNamesSuppressWhenArgumentMatchesName
        (JBool true)))));
    ("includeInlayFunctionParameterTypeHints",
      config_get_or config InlayHintSettingNames.parameterNamesEnabled (JBool false));
    ("includeInlayVariableTypeHints",
      config_get_or config InlayHintSettingNames.variableTypesEnabled (JBool false));
    ("includeInlayPropertyDeclarationTypeHints",
      config_get_or config InlayHintSettingNames.propertyDeclarationTypesEnabled
        (JBool false));
    ("includeInlayFunctionLikeReturnTypeHints",
      config_get_or config InlayHintSettingNames.functionLikeReturnTypesEnabled
        (JBool false));
    ("includeInlayEnumMemberValueHints",
      config_get_or config InlayHintSettingNames.enumMemberValuesEnabled
        (JBool false)) ].

Definition getPreferences (language uri : string) : Obj :=
  if APIv.lt apiVersion APIv.v290 then obj_literal []
  else
    let config := getConfiguration workspace language (Some uri) in
    let preferencesConfig :=
      getConfiguration workspace (language ++ ".preferences") (Some uri) in
    let suggestConfig := getCompleteOptions language in
    obj_literal
      ([ ("quotePreference", getQuoteStyle preferencesConfig);
         ("importModuleSpecifierPreference",
           getImportModuleSpecifier preferencesConfig);
         ("importModuleSpecifierEnding",
           getImportModuleSpecifierEndingPreference preferencesConfig);
         ("jsxAttributeCompletionStyle",
           getJsxAttributeCompletionStyle preferencesConfig);
         ("allowTextChangesInNewFiles", JBool (String.prefix "file:" uri));
         ("allowRenameOfImportPath", JBool true);
         ("provideRefactorNotApplicableReason", JBool false);
         ("providePrefixAndSuffixTextForRename",
           if strict_eq
                (config_get_or preferencesConfig "renameShorthandProperties" (JBool true))
                (JBool false)
           then JBool false
           else config_get_or preferencesConfig "useAliasesForRenames" (JBool true));
         ("generateReturnInDocTemplate",
           generateReturnInDocTemplate suggestConfig);
         ("includeCompletionsForImportStatements",
           includeCompletionsForImportStatements suggestConfig);
         ("includeCompletionsWithClassMemberSnippets",
           includeCompletionsWithClassMemberSnippets suggestConfig);
         ("includeCompletionsWithSnippetText",
           includeCompletionsWithSnippetText suggestConfig);
         ("includeCompletionsWithObjectLiteralMethodSnippets",
           includeCompletionsWithObjectLiteralMethodSnippets suggestConfig);
         ("includeAutomaticOptionalChainCompletions",
           includeAutomaticOptionalChainCompletions suggestConfig);
         ("useLabelDetailsInCompletionEntries", JBool true);
         ("allowIncompleteCompletions", JBool true);
         ("displayPartsForJSDoc", JBool true) ]
       ++ getInlayHintsPreferences config).

Definition getFileOptions (options : FormatOptions) (document : TextDocument)
    : FileConfiguration :=
  let lang :=
    if isTypeScriptDocument (languageId document) then "typescript"
    else "javascript" in
  {| formatOptions := getFormatOptions options lang (uri document);
     preferences := getPreferences lang (uri document) |}.
End Derivation.

(** ** The client, the cache and the effects of the asynchronous methods *)

Inductive CancellationToken : Type :=
  | CancellationToken_None
  | Token (id : nat).

(** [Proto.ConfigureRequestArguments]: [{ file, ...currentOptions }]. *)
Record ConfigureRequestArguments : Type := mkArgs {
  file : string;
  arg_formatOptions : Obj;
  arg_preferences : Obj
}.

(** How one [client.execute] ends: the promise is fulfilled with a response
    whose [type] is 'response', 'cancelled', 'noContent', ..., or it is
    rejected. *)
Inductive ExecuteOutcome : Type :=
  | Fulfilled (response_type : string)
  | Rejected.

(** Modelled from the spec: [ITypeScriptServiceClient] is declared in
    [../typescriptService].  The manager uses its negotiated [apiVersion],
    [toPath] and [execute]; [server n] is how the server ends the request
    number [n] it receives, so that a property proved for every [server]
    holds for every behaviour of the backend and of the transport. *)
Record Client : Type := mkClient {
  apiVersion : API;
  toPath : string -> string;
  server : nat -> ExecuteOutcome
}.

(** What leaves the manager: requests to the server and queries of the
    editor's format options. *)
Inductive Event : Type :=
  | EvExecute (command : string) (args : ConfigureRequestArguments)
      (token : CancellationToken)
  | EvGetFormatOptions (document_uri : string).

Record State : Type := mkState {
  cachedMap : gmap string FileConfiguration;
  requests : nat;
  trace : list Event
}.

(** How an [async] method (or a handler) ends: its promise resolves with a
    value, or it rejects (an exception reaches the caller). *)
Inductive Completion (A : Type) : Type :=
  | Resolves (a : A)
  | Rejects.
Arguments Resolves {A} a.
Arguments Rejects {A}.

Definition M (A : Type) : Type := State -> Completion A * State.

#[global] Instance M_ret : MRet M := fun A a s => (Resolves a, s).

#[global] Instance M_bind : MBind M := fun A B k m s =>
  match m s with
  | (Resolves a, s') => k a s'
  | (Rejects, s') => (Rejects, s')
  end.

(** [try { body } catch (_e) { handler }]. *)
Definition try_catch {A : Type} (body handler : M A) : M A := fun s =>
  match body s with
  | (Resolves a, s') => (Resolves a, s')
  | (Rejects, s') => handler s'
  end.

Definition Map_get (key : string) : M (option FileConfiguration) := fun s =>
  (Resolves (cachedMap s !! key), s).

Definition Map_set (key : string) (value : FileConfiguration) : M unit := fun s =>
  (Resolves tt, mkState (<[key := value]> (cachedMap s)) (requests s) (trace s)).

Definition Map_delete (key : string) : M unit := fun s =>
  (Resolves tt, mkState (delete key (cachedMap s)) (requests s) (trace s)).

Definition Map_clear : M unit := fun s =>
  (Resolves tt, mkState ∅ (requests s) (trace s)).

(** [await client.execute(command, args, token)]. *)
Definition execute (client : Client) (command : string)
    (args : ConfigureRequestArguments) (token : CancellationToken) : M string :=
  fun s =>
    let s' := mkState (cachedMap s) (S (requests s))
                (trace s ++ [EvExecute command args token]) in
    match server client (requests s) with
    | Fulfilled response_type => (Resolves response_type, s')
    | Rejected => (Rejects, s')
    end.

(** [await workspace.getFormatOptions(uri)]. *)
Definition workspace_getFormatOptions (workspace : Workspace) (u : string)
    : M FormatOptions := fun s =>
  (Resolves (ws_getFormatOptions workspace u),
   mkState (cachedMap s) (requests s) (trace s ++ [EvGetFormatOptions u])).

(** ** FileConfigurationManager *)

Section FileConfigurationManager.
Variable client : Client.
Variable workspace : Workspace.

(** The handler the constructor registers with
    [workspace.onDidCloseTextDocument]. *)
Definition onDidCloseTextDocument (textDocument : TextDocument) : M unit :=
  Map_delete (uri textDocument).

(** The test of the fast path: [cachedOption && objAreEqual(..) && objAreEqual(..)]. *)
Definition cache_hit (cachedOption : option FileConfiguration)
    (currentOptions : FileConfiguration) : bool :=
  match cachedOption with
  | Some cached =>
      objAreEqual (formatOptions cached) (formatOptions currentOptions)
      && objAreEqual (preferences cached) (preferences currentOptions)
  | None => false
  end.

Definition ensureConfigurationOptions (document : TextDocument)
    (insertSpaces tabSize : JsValue) (token : CancellationToken) : M unit :=
  let file := toPath client (uri document) in
  let options := mkFormatOptions tabSize insertSpaces in
  cachedOption ← Map_get (uri document);
  let currentOptions :=
    getFileOptions workspace (apiVersion client) options document in
  if cache_hit cachedOption currentOptions then mret tt
  else
    Map_set (uri document) currentOptions;;
    let args :=
      mkArgs file (formatOptions currentOptions) (preferences currentOptions) in
    execute client "configure" args CancellationToken_None;;
    try_catch
      (response ← execute client "configure" args token;
       if negb (String.eqb response "response")
       then Map_delete (uri document)
       else mret tt)
      (Map_delete (uri document)).

Definition ensureConfigurationForDocument (document : TextDocument)
    (token : CancellationToken) : M unit :=
  cached ← Map_get (uri document);
  opts ← match cached with
         | Some cached =>
             mret (mkFormatOptions
                     (obj_get (formatOptions cached) "tabSize")
                     (obj_get (formatOptions cached) "convertTabsToSpaces"))
         | None => workspace_getFormatOptions workspace (uri document)
         end;
  ensureConfigurationOptions document (insertSpaces opts) (tabSize opts) token.

Definition reset : M unit := Map_clear.

End FileConfigurationManager.

(** ** The language configuration *)

Section SettingsReaders.
Variable workspace : Workspace.

Definition getLanguageConfiguration (languageId : string) : WorkspaceConfiguration :=
  getConfiguration workspace languageId None.

End SettingsReaders.

(** ** LanguageProvider *)

(** [DiagnosticSeverity] of the language server protocol. *)
Module DiagnosticSeverity.
Definition Error : JsValue := JNum 1.
Definition Warning : JsValue := JNum 2.
Definition Information : JsValue := JNum 3.
Definition Hint : JsValue := JNum 4.
End DiagnosticSeverity.

(** What [diagnosticsReceived] reads of a diagnostic; [body] stands for the
    fields it passes on untouched (range, message, code, ...). *)
Record Diagnostic : Type := mkDiagnostic {
  body : string;
  severity : JsValue;
  reportUnnecessary : JsValue;
  reportDeprecated : JsValue
}.

(** The callback given to [diagnostics.filter]. *)
Definition keep_diagnostic (reportUnnecessary_setting reportDeprecated_setting : JsValue)
    (diag : Diagnostic) : bool :=
  if negb (truthy reportUnnecessary_setting)
     && (truthy (reportUnnecessary diag)
         && strict_eq (severity diag) DiagnosticSeverity.Information)
  then false
  else if negb (truthy reportDeprecated_setting)
          && (truthy (reportDeprecated diag)
              && strict_eq (severity diag) DiagnosticSeverity.Hint)
  then false
  else true.

(** [diagnosticsReceived]: the list handed to
    [client.diagnosticsManager.diagnosticsReceived] for [file]. *)
Definition diagnosticsReceived (workspace : Workspace) (id file : string)
    (diagnostics : list Diagnostic) : list Diagnostic :=
  let config := getConfiguration workspace id (Some file) in
  let reportUnnecessary := config_get_or config "showUnused" (JBool true) in
  let reportDeprecated := config_get_or config "showDeprecated" (JBool true) in
  List.filter (keep_diagnostic reportUnnecessary reportDeprecated) diagnostics.

(** What [registerProviders] hands to [_register], by the provider it
    creates and the host call it registers it with. *)
Inductive Registration : Type :=
  | CompletionItemProvider (name : string)
  | JsDocCompletionProvider (name : string)
  | DirectiveCommentCompletionProvider (name : string)
  | DefinitionProvider
  | TypeDefinitionProvider
  | ImplementationProvider
  | ReferenceProvider
  | HoverProvider
  | DocumentHighlight
  | SignatureHelpProvider
  | DocumentSymbolProvider
  | RenameProvider
  | DocumentFormatProvider
  | DocumentRangeFormatProvider
  | OnTypeFormattingEditProvider
  | InstallModuleProvider
  | CallHierarchyProvider
  | DocumentSemanticTokensProvider
  | DocumentRangeSemanticTokensProvider
  | UpdateImportsOnFileRenameHandler
  | Folding
  | OrganizeImportsCodeActionProvider
  | RefactorProvider
  | QuickfixProvider
  | ImportfixProvider
  | ReferencesCodeLensProvider
  | ImplementationsCodeLensProvider
  | SmartSelection
  | TagClosing
  | TypeScriptInlayHintsProvider
  | InlayHintsProviderRegistration.

(** Which optional registration functions the host's [languages] object has
    ([typeof languages[...] === 'function']). *)
Record Languages : Type := mkLanguages {
  registerCallHierarchyProvider : bool;
  registerDocumentSemanticTokensProvider : bool;
  registerDocumentRangeSemanticTokensProvider : bool;
  registerInlayHintsProvider : bool
}.

(** The version thresholds [registerProviders] tests; their values are
    constants of the class [API]. *)
Record Thresholds : Type := mkThresholds {
  v206 : API; v220 : API; v230 : API; v240 : API; v280 : API; v290 : API;
  v300 : API; v350 : API; v370 : API; v380 : API; v440 : API
}.

(** [if (c) this._register(r)]. *)
Definition register_if (c : bool) (r : Registration) : list Registration :=
  if c then [r] else [].

Section RegisterProviders.
Variable workspace : Workspace.
Variable languages : Languages.
Variable API_ : Thresholds.
Variable apiVersion : API.
(** [this.description.id]. *)
Variable id : string.

(** [registerProviders]: the disposables pushed, in order. *)
Definition registerProviders : list Registration :=
  let clientId := "tsc-" ++ id in
  let conf := getLanguageConfiguration workspace id in
  ([ CompletionItemProvider clientId;
     JsDocCompletionProvider ("tsc-" ++ id ++ "-jsdoc") ]
   ++ register_if (APIv.gte apiVersion (v230 API_))
        (DirectiveCommentCompletionProvider (id ++ "-directive"))
   ++ [ DefinitionProvider; TypeDefinitionProvider; ImplementationProvider;
        ReferenceProvider; HoverProvider; DocumentHighlight;
        SignatureHelpProvider; DocumentSymbolProvider; RenameProvider;
        DocumentFormatProvider; DocumentRangeFormatProvider;
        OnTypeFormattingEditProvider; InstallModuleProvider ]
   ++ register_if (APIv.gte apiVersion (v380 API_)
                   && registerCallHierarchyProvider languages)
        CallHierarchyProvider
   ++ (if APIv.gte apiVersion (v370 API_)
       then register_if (registerDocumentSemanticTokensProvider languages)
              DocumentSemanticTokensProvider
            ++ register_if (registerDocumentRangeSemanticTokensProvider languages)
                 DocumentRangeSemanticTokensProvider
       else [])
   ++ (if bool_decide (id ∈ ["javascript"; "typescript"])
       then register_if (APIv.gte apiVersion (v290 API_)
                         && truthy (config_get conf "updateImportsOnFileMove.enable"))
              UpdateImportsOnFileRenameHandler
       else [])
   ++ (if APIv.gte apiVersion (v280 API_)
       then [Folding; OrganizeImportsCodeActionProvider]
       else [])
   ++ register_if (APIv.gte apiVersion (v240 API_)) RefactorProvider
   ++ [ QuickfixProvider; ImportfixProvider ]
   ++ register_if (APIv.gte apiVersion (v206 API_)
                   && truthy (config_get conf "referencesCodeLens.enable"))
        ReferencesCodeLensProvider
   ++ register_if (APIv.gte apiVersion (v220 API_)
                   && truthy (config_get conf "implementationsCodeLens.enable"))
        ImplementationsCodeLensProvider
   ++ register_if (APIv.gte apiVersion (v350 API_)) SmartSelection
   ++ register_if (APIv.gte apiVersion (v300 API_)) TagClosing
   ++ (if APIv.gte apiVersion (v440 API_)
       then if registerInlayHintsProvider languages
            then [TypeScriptInlayHintsProvider; InlayHintsProviderRegistration]
            else []
       else []))%list.

(** What [registerProviders] writes with [client.logger.error]. *)
Definition registerProviders_errors : list string :=
  if APIv.gte apiVersion (v440 API_)
  then if registerInlayHintsProvider languages then []
       else ["languages.registerInlayHintsProvider is not a function, inlay hints won't work"]
  else [].

End RegisterProviders.

(** ** Vocabulary of the statements *)

Local Open Scope list_scope.

(** The snapshot a call derives and the request it sends for it. *)
Definition candidate (client : Client) (workspace : Workspace)
    (document : TextDocument) (insertSpaces tabSize : JsValue)
    : FileConfiguration :=
  getFileOptions workspace (apiVersion client)
    (mkFormatOptions tabSize insertSpaces) document.

Definition configure_args (client : Client) (document : TextDocument)
    (c : FileConfiguration) : ConfigureRequestArguments :=
  mkArgs (toPath client (uri document)) (formatOptions c) (preferences c).

(** The 'configure' sends of one miss: the send without deadline, then the
    deadline-bound one. *)
Definition configure_sequence (client : Client) (document : TextDocument)
    (c : FileConfiguration) (token : CancellationToken) : list Event :=
  [ EvExecute "configure" (configure_args client document c) CancellationToken_None;
    EvExecute "configure" (configure_args client document c) token ].

Definition is_query (e : Event) : bool :=
  match e with
  | EvGetFormatOptions _ => true
  | EvExecute _ _ _ => false
  end.

(** ** Concrete collaborators *)

(** No setting is set; the editor indents with tabs of width 4. *)
Definition unset_workspace : Workspace :=
  mkWorkspace (fun _ _ => mkConfig (fun _ => JUndefined))
              (fun _ => mkFormatOptions (JNum 4) (JBool false)).

(** A settings section that stores [value] under [key] and nothing else. *)
Definition single_setting (key : string) (value : JsValue) : WorkspaceConfiguration :=
  mkConfig (fun k => if String.eqb k key then value else JUndefined).

Definition doc_a : TextDocument := mkDocument "file:///a.ts" "typescript".

(** A server on TypeScript 4.5.0 that acknowledges every request. *)
Definition client_ok : Client :=
  mkClient (mkAPI 4 5 0) (fun u => u) (fun _ => Fulfilled "response").

(** The same server, except that its second request (number 1) is lost. *)
Definition client_flaky : Client :=
  mkClient (mkAPI 4 5 0) (fun u => u)
    (fun n => if Nat.eqb n 1 then Rejected else Fulfilled "response").

(** A server whose every request is rejected. *)
Definition client_down : Client :=
  mkClient (mkAPI 4 5 0) (fun u => u) (fun _ => Rejected).

(** A fresh manager: empty cache, nothing sent. *)
Definition cold : State := mkState ∅ 0 [].

(** The property names of a derived [Proto.FormatCodeSettings], in the order
    of the literal in [getFormatOptions]. *)
Definition FormatCodeSettings_keys : list string :=
  [ "tabSize"; "indentSize"; "convertTabsToSpaces"; "newLineCharacter";
    "insertSpaceAfterCommaDelimiter"; "insertSpaceAfterConstructor";
    "insertSpaceAfterSemicolonInForStatements";
    "insertSpaceBeforeAndAfterBinaryOperators";
    "insertSpaceAfterKeywordsInControlFlowStatements";
    "insertSpaceAfterFunctionKeywordForAnonymousFunctions";
    "insertSpaceBeforeFunctionParenthesis";
    "insertSpaceAfterOpeningAndBeforeClosingNonemptyParenthesis";
    "insertSpaceAfterOpeningAndBeforeClosingNonemptyBrackets";
    "insertSpaceAfterOpeningAndBeforeClosingEmptyBraces";
    "insertSpaceAfterOpeningAndBeforeClosingNonemptyBraces";
    "insertSpaceAfterOpeningAndBeforeClosingTemplateStringBraces";
    "insertSpaceAfterOpeningAndBeforeClosingJsxExpressionBraces";
    "insertSpaceAfterTypeAssertion"; "placeOpenBraceOnNewLineForFunctions";
    "placeOpenBraceOnNewLineForControlBlocks"; "semicolons" ].

(** The property names of the [Proto.UserPreferences] derived from version
    2.9.0 on: the literal of [getPreferences], then the inlay hints. *)
Definition UserPreferences_keys : list string :=
  [ "quotePreference"; "importModuleSpecifierPreference";
    "importModuleSpecifierEnding"; "jsxAttributeCompletionStyle";
    "allowTextChangesInNewFiles"; "allowRenameOfImportPath";
    "provideRefactorNotApplicableReason"; "providePrefixAndSuffixTextForRename";
    "generateReturnInDocTemplate"; "includeCompletionsForImportStatements";
    "includeCompletionsWithClassMemberSnippets";
    "includeCompletionsWithSnippetText";
    "includeCompletionsWithObjectLiteralMethodSnippets";
    "includeAutomaticOptionalChainCompletions";
    "useLabelDetailsInCompletionEntries"; "allowIncompleteCompletions";
    "displayPartsForJSDoc"; "includeInlayParameterNameHints";
    "includeInlayParameterNameHintsWhenArgumentMatchesName";
    "includeInlayFunctionParameterTypeHints"; "includeInlayVariableTypeHints";
    "includeInlayPropertyDeclarationTypeHints";
    "includeInlayFunctionLikeReturnTypeHints";
    "includeInlayEnumMemberValueHints" ].

(** A workspace in which one section stores one setting and the editor
    indents with tabs of width 4. *)
Definition workspace_with (section key : string) (value : JsValue) : Workspace :=
  mkWorkspace
    (fun sec _ => if String.eqb sec section then single_setting key value
                  else mkConfig (fun _ => JUndefined))
    (fun _ => mkFormatOptions (JNum 4) (JBool false)).

Definition doc_b : TextDocument := mkDocument "file:///b.js" "javascript".

(** A server on TypeScript 2.8.0 that acknowledges every request. *)
Definition client_old : Client :=
  mkClient (mkAPI 2 8 0) (fun u => u) (fun _ => Fulfilled "response").

(** The manager after one acknowledged call for [doc_a]. *)
Definition warm : State :=
  (ensureConfigurationOptions client_ok unset_workspace doc_a
     (JBool true) (JNum 2) (Token 1) cold).2.

(** The registrations [registerProviders] makes whatever the version, the
    host and the settings, in its order. *)
Definition unconditional_registrations (id : string) : list Registration :=
  [ CompletionItemProvider ("tsc-" ++ id);
    JsDocCompletionProvider ("tsc-" ++ id ++ "-jsdoc");
    DefinitionProvider; TypeDefinitionProvider; ImplementationProvider;
    ReferenceProvider; HoverProvider; DocumentHighlight; SignatureHelpProvider;
    DocumentSymbolProvider; RenameProvider; DocumentFormatProvider;
    DocumentRangeFormatProvider; OnTypeFormattingEditProvider;
    InstallModuleProvider; QuickfixProvider; ImportfixProvider ].

(** Every registration [registerProviders] can make, in its order. *)
Definition all_registrations (id : string) : list Registration :=
  [ CompletionItemProvider ("tsc-" ++ id);
    JsDocCompletionProvider ("tsc-" ++ id ++ "-jsdoc");
    DirectiveCommentCompletionProvider (id ++ "-directive");
    DefinitionProvider; TypeDefinitionProvider; ImplementationProvider;
    ReferenceProvider; HoverProvider; DocumentHighlight; SignatureHelpProvider;
    DocumentSymbolProvider; RenameProvider; DocumentFormatProvider;
    DocumentRangeFormatProvider; OnTypeFormattingEditProvider;
    InstallModuleProvider; CallHierarchyProvider;
    DocumentSemanticTokensProvider; DocumentRangeSemanticTokensProvider;
    UpdateImportsOnFileRenameHandler; Folding; OrganizeImportsCodeActionProvider;
    RefactorProvider; QuickfixProvider; ImportfixProvider;
    ReferencesCodeLensProvider; ImplementationsCodeLensProvider;
    SmartSelection; TagClosing; TypeScriptInlayHintsProvider;
    InlayHintsProviderRegistration ].

(** The place of a registration in the source of [registerProviders]. *)
Definition registration_rank (r : Registration) : nat :=
  match r with
  | CompletionItemProvider _ => 0
  | JsDocCompletionProvider _ => 1
  | DirectiveCommentCompletionProvider _ => 2
  | DefinitionProvider => 3
  | TypeDefinitionProvider => 4
  | ImplementationProvider => 5
  | ReferenceProvider => 6
  | HoverProvider => 7
  | DocumentHighlight => 8
  | SignatureHelpProvider => 9
  | DocumentSymbolProvider => 10
  | RenameProvider => 11
  | DocumentFormatProvider => 12
  | DocumentRangeFormatProvider => 13
  | OnTypeFormattingEditProvider => 14
  | InstallModuleProvider => 15
  | CallHierarchyProvider => 16
  | DocumentSemanticTokensProvider => 17
  | DocumentRangeSemanticTokensProvider => 18
  | UpdateImportsOnFileRenameHandler => 19
  | Folding => 20
  | OrganizeImportsCodeActionProvider => 21
  | RefactorProvider => 22
  | QuickfixProvider => 23
  | ImportfixProvider => 24
  | ReferencesCodeLensProvider => 25
  | ImplementationsCodeLensProvider => 26
  | SmartSelection => 27
  | TagClosing => 28
  | TypeScriptInlayHintsProvider => 29
  | InlayHintsProviderRegistration => 30
  end.

(** The thresholds by their names: [v206] is version 2.0.6, and so on. *)
Definition thresholds_by_name : Thresholds :=
  mkThresholds (mkAPI 2 0 6) (mkAPI 2 2 0) (mkAPI 2 3 0) (mkAPI 2 4 0)
    (mkAPI 2 8 0) (mkAPI 2 9 0) (mkAPI 3 0 0) (mkAPI 3 5 0) (mkAPI 3 7 0)
    (mkAPI 3 8 0) (mkAPI 4 4 0).

(** A host that has none of the optional registration functions. *)
Definition bare_host : Languages := mkLanguages false false false false.

(** ** Basic facts about values and objects *)

Lemma strict_eq_true (a b : JsValue) : strict_eq a b = true ↔ a = b.
Proof.
  destruct a, b; simpl; split; intros H; try discriminate; try reflexivity.
  - f_equal. by apply Bool.eqb_prop.
  - injection H as ->. apply Bool.eqb_reflx.
  - f_equal. by apply Z.eqb_eq.
  - injection H as ->. apply Z.eqb_refl.
  - f_equal. by apply String.eqb_eq.
  - injection H as ->. apply String.eqb_refl.
Qed.

Lemma strict_eq_refl (a : JsValue) : strict_eq a a = true.
Proof. by apply strict_eq_true. Qed.

Lemma strict_ne_false (a b : JsValue) : strict_ne a b = false ↔ a = b.
Proof. unfold strict_ne. rewrite Bool.negb_false_iff. apply strict_eq_true. Qed.

(** The loop answers [true] exactly when every remaining key of [a] reads the
    same in [a] and in [b]; the keys of [b] are never enumerated. *)
Lemma objAreEqual_loop_true (keys : list string) (a b : Obj) :
  objAreEqual_loop keys a b = true ↔
  ∀ key, key ∈ keys → obj_get a key = obj_get b key.
Proof.
  induction keys as [|key rest IH]; simpl.
  - split; [intros _ key Hin; by apply elem_of_nil in Hin | done].
  - destruct (strict_ne (obj_get a key) (obj_get b key)) eqn:E.
    + split; [done | intros H].
      assert (obj_get a key = obj_get b key) as Heq by (apply H; left).
      apply strict_ne_false in Heq. congruence.
    + apply strict_ne_false in E. rewrite IH. split.
      * intros H k Hk. apply elem_of_cons in Hk as [-> | Hk]; auto.
      * intros H k Hk. apply H. by right.
Qed.

Lemma objAreEqual_true (a b : Obj) :
  objAreEqual a b = true ↔
  ∀ key, key ∈ Object_keys a → obj_get a key = obj_get b key.
Proof. apply objAreEqual_loop_true. Qed.

Lemma objAreEqual_refl (a : Obj) : objAreEqual a a = true.
Proof. by apply objAreEqual_true. Qed.

(** On two objects with the same keys the comparison does not depend on the
    side, nor on the order in which either object lists its keys. *)
Lemma objAreEqual_sym_same_keys (a b : Obj) :
  (∀ key, key ∈ Object_keys a ↔ key ∈ Object_keys b) →
  objAreEqual a b = objAreEqual b a.
Proof.
  intros Hkeys. apply Bool.eq_true_iff_eq. rewrite !objAreEqual_true. split.
  - intros H key Hin. symmetry. apply H. by apply Hkeys.
  - intros H key Hin. symmetry. apply H. by apply Hkeys.
Qed.

Lemma cache_hit_refl (c : FileConfiguration) : cache_hit (Some c) c = true.
Proof. simpl. by rewrite !objAreEqual_refl. Qed.

(** ** The two paths of ensureConfigurationOptions *)

Section Paths.
Variable client : Client.
Variable workspace : Workspace.
Variable document : TextDocument.
Variables insertSpaces tabSize : JsValue.
Variable token : CancellationToken.

Lemma ensure_hit (s : State) :
  cache_hit (cachedMap s !! uri document)
    (candidate client workspace document insertSpaces tabSize) = true →
  ensureConfigurationOptions client workspace document insertSpaces tabSize
    token s = (Resolves tt, s).
Proof.
  intros H. unfold ensureConfigurationOptions, mbind, M_bind, Map_get.
  fold (candidate client workspace document insertSpaces tabSize).
  by rewrite H.
Qed.

Lemma ensure_miss (s : State) :
  cache_hit (cachedMap s !! uri document)
    (candidate client workspace document insertSpaces tabSize) = false →
  ensureConfigurationOptions client workspace document insertSpaces tabSize
    token s =
    let cur := candidate client workspace document insertSpaces tabSize in
    let committed := <[uri document := cur]> (cachedMap s) in
    let first := EvExecute "configure" (configure_args client document cur)
                   CancellationToken_None in
    match server client (requests s) with
    | Rejected =>
        (Rejects, mkState committed (S (requests s)) (trace s ++ [first]))
    | Fulfilled _ =>
        let sent := trace s ++ configure_sequence client document cur token in
        match server client (S (requests s)) with
        | Fulfilled response_type =>
            if String.eqb response_type "response"
            then (Resolves tt, mkState committed (S (S (requests s))) sent)
            else (Resolves tt,
                  mkState (delete (uri document) committed) (S (S (requests s))) sent)
        | Rejected =>
            (Resolves tt,
             mkState (delete (uri document) committed) (S (S (requests s))) sent)
        end
    end.
Proof.
  intros H. unfold ensureConfigurationOptions, mbind, M_bind, Map_get.
  fold (candidate client workspace document insertSpaces tabSize).
  rewrite H. unfold Map_set, execute, try_catch, Map_delete, mret, M_ret.
  cbn zeta. cbn [cachedMap requests trace].
  destruct (server client (requests s)) as [t0|]; [|done].
  cbn [cachedMap requests trace]. unfold configure_sequence.
  rewrite <- app_assoc. cbn [app].
  destruct (server client (S (requests s))) as [t1|]; [|done].
  by destruct (String.eqb t1 "response").
Qed.

End Paths.

(** A call emits requests only, and only 'configure' sends. *)
Lemma ensure_emits_no_query client workspace document insertSpaces tabSize token
    (s : State) :
  ∃ evs,
    trace (ensureConfigurationOptions client workspace document insertSpaces
             tabSize token s).2 = trace s ++ evs
    ∧ forallb (fun e => negb (is_query e)) evs = true.
Proof.
  destruct (cache_hit (cachedMap s !! uri document)
              (candidate client workspace document insertSpaces tabSize)) eqn:E.
  - rewrite ensure_hit by done. exists []. by rewrite app_nil_r.
  - rewrite ensure_miss by done. cbn zeta.
    destruct (server client (requests s)) as [t0|].
    + exists (configure_sequence client document
                (candidate client workspace document insertSpaces tabSize) token).
      destruct (server client (S (requests s))) as [t1|];
        [destruct (String.eqb t1 "response")|]; done.
    + by eexists [_].
Qed.

(** A call that misses the cache sends, first of all without deadline. *)
Lemma ensure_miss_sends client workspace document insertSpaces tabSize token
    (s : State) :
  cache_hit (cachedMap s !! uri document)
    (candidate client workspace document insertSpaces tabSize) = false →
  ∃ rest,
    trace (ensureConfigurationOptions client workspace document insertSpaces
             tabSize token s).2 =
    trace s ++
      EvExecute "configure"
        (configure_args client document
           (candidate client workspace document insertSpaces tabSize))
        CancellationToken_None :: rest.
Proof.
  intros Hmiss. rewrite ensure_miss by done. cbn zeta.
  destruct (server client (requests s)) as [t0|].
  - eexists [_]. unfold configure_sequence.
    destruct (server client (S (requests s))) as [t1|];
      [destruct (String.eqb t1 "response")|]; done.
  - by exists [].
Qed.

(** In particular a call that finds no entry for the document sends. *)
Lemma ensure_absent_sends client workspace document insertSpaces tabSize token
    (s : State) :
  cachedMap s !! uri document = None →
  ∃ rest,
    trace (ensureConfigurationOptions client workspace document insertSpaces
             tabSize token s).2 =
    trace s ++
      EvExecute "configure"
        (configure_args client document
           (candidate client workspace document insertSpaces tabSize))
        CancellationToken_None :: rest.
Proof. intros Hnone. apply ensure_miss_sends. by rewrite Hnone. Qed.

(** ** Idempotence of ensureConfigurationOptions *)

(** C1 (as stated) fails: on a fresh manager whose deadline-bound send is
    rejected, the second of two identical calls sends the whole sequence
    again, so the pair issues two sequences, four requests. *)
Lemma ensure_twice_resends_after_lost_send :
  let '(_, s1) := ensureConfigurationOptions client_flaky unset_workspace doc_a
                    (JBool true) (JNum 2) (Token 1) cold in
  let '(_, s2) := ensureConfigurationOptions client_flaky unset_workspace doc_a
                    (JBool true) (JNum 2) (Token 2) s1 in
  let cur := candidate client_flaky unset_workspace doc_a (JBool true) (JNum 2) in
  trace s1 = configure_sequence client_flaky doc_a cur (Token 1)
  ∧ trace s2 = trace s1 ++ configure_sequence client_flaky doc_a cur (Token 2)
  ∧ cachedMap s1 !! uri doc_a = None
  ∧ cachedMap s2 !! uri doc_a = Some cur.
Proof. vm_compute. done. Qed.

(** ** The comparison of snapshots *)

(** C2: [objAreEqual] enumerates the keys of its first argument only.  The
    preferences derived below version 2.9.0 (the empty object) compare equal
    to the preferences derived for version 4.5.0, which differ from them,
    while the comparison the other way round answers [false]: a key with a
    defined value in the second object and absent from the first goes
    unnoticed, and the comparison is not symmetric. *)
Theorem objAreEqual_ignores_keys_of_second :
  let older := getPreferences unset_workspace (mkAPI 2 8 0) "typescript" "file:///a.ts" in
  let newer := getPreferences unset_workspace (mkAPI 4 5 0) "typescript" "file:///a.ts" in
  older = []
  ∧ obj_get newer "quotePreference" = JStr "auto"
  ∧ objAreEqual older newer = true
  ∧ objAreEqual newer older = false
  ∧ objAreEqual [] [("quotePreference", JStr "single")] = true
  ∧ objAreEqual [("quotePreference", JStr "single")] [] = false.
Proof. vm_compute. done. Qed.

(** ** Failed sends *)

(** C3: a call that misses the cache and whose deadline-bound send does not
    end in a response of type 'response' (another type, such as 'cancelled',
    or a rejection) resolves and leaves no entry for the document; the next
    call for that document, whatever its settings and format options, sends
    a 'configure' request. *)
Theorem failed_send_evicts client workspace document insertSpaces tabSize token
    (s : State) (t0 : string) :
  cache_hit (cachedMap s !! uri document)
    (candidate client workspace document insertSpaces tabSize) = false →
  server client (requests s) = Fulfilled t0 →
  server client (S (requests s)) ≠ Fulfilled "response" →
  let '(r1, s1) := ensureConfigurationOptions client workspace document
                     insertSpaces tabSize token s in
  r1 = Resolves tt
  ∧ cachedMap s1 !! uri document = None
  ∧ ∀ workspace' insertSpaces' tabSize' token',
      ∃ rest,
        trace (ensureConfigurationOptions client workspace' document
                 insertSpaces' tabSize' token' s1).2 =
        trace s1 ++
          EvExecute "configure"
            (configure_args client document
               (candidate client workspace' document insertSpaces' tabSize'))
            CancellationToken_None :: rest.
Proof.
  intros Hmiss Hfirst Hsecond. rewrite ensure_miss by done. cbn zeta.
  rewrite Hfirst.
  assert (∀ m n tr,
    let s1 := mkState (delete (uri document) m) n tr in
    Resolves tt = Resolves tt
    ∧ cachedMap s1 !! uri document = None
    ∧ ∀ workspace' insertSpaces' tabSize' token',
        ∃ rest,
          trace (ensureConfigurationOptions client workspace' document
                   insertSpaces' tabSize' token' s1).2 =
          trace s1 ++
            EvExecute "configure"
              (configure_args client document
                 (candidate client workspace' document insertSpaces' tabSize'))
              CancellationToken_None :: rest) as Hevicted.
  { intros m n tr s1. split; [done|]. split.
    - apply lookup_delete_eq.
    - intros. apply ensure_absent_sends. apply lookup_delete_eq. }
  destruct (server client (S (requests s))) as [t1|]; [|apply Hevicted].
  destruct (String.eqb t1 "response") eqn:Et; [|apply Hevicted].
  apply String.eqb_eq in Et. by subst t1.
Qed.

Lemma failed_send_evicts_witness :
  cachedMap (ensureConfigurationOptions client_flaky unset_workspace doc_a
               (JBool true) (JNum 2) (Token 1) cold).2 !! uri doc_a = None.
Proof.
  pose proof (failed_send_evicts client_flaky unset_workspace doc_a
                (JBool true) (JNum 2) (Token 1) cold "response") as H.
  destruct (ensureConfigurationOptions client_flaky unset_workspace doc_a
              (JBool true) (JNum 2) (Token 1) cold) as [r1 s1].
  apply H; [reflexivity | reflexivity | discriminate].
Defined.

(** C4: the send without deadline is awaited outside the [try] block.  On a
    fresh manager whose server rejects it, the call rejects, the
    deadline-bound send is never issued and the entry committed before the
    send stays in the cache. *)
Theorem unguarded_send_rejection_reaches_caller :
  let '(r, s1) := ensureConfigurationOptions client_down unset_workspace doc_a
                    (JBool true) (JNum 2) (Token 1) cold in
  let cur := candidate client_down unset_workspace doc_a (JBool true) (JNum 2) in
  r = Rejects
  ∧ trace s1 = [EvExecute "configure" (configure_args client_down doc_a cur)
                  CancellationToken_None]
  ∧ cachedMap s1 !! uri doc_a = Some cur.
Proof. vm_compute. done. Qed.

(** ** Derivation *)

(** C5: below version 2.9.0 the preferences are the empty object, whatever
    the language, the document and the settings. *)
Theorem getPreferences_before_v290 workspace (version : API) (language u : string) :
  APIv.lt version APIv.v290 = true →
  getPreferences workspace version language u = []
  ∧ Object_keys (getPreferences workspace version language u) = [].
Proof. intros H. unfold getPreferences. by rewrite H. Qed.

Lemma getPreferences_before_v290_witness :
  getPreferences unset_workspace (mkAPI 2 8 3) "javascript" "file:///b.js" = []
  ∧ Object_keys
      (getPreferences unset_workspace (mkAPI 2 8 3) "javascript" "file:///b.js") = [].
Proof.
  apply (getPreferences_before_v290 unset_workspace (mkAPI 2 8 3)). reflexivity.
Defined.

(** C7: the quote style is the configured one ('auto' when the setting is
    unset) from version 3.3.3 on, and the user's value whenever that value is
    set and is not 'auto'; below 3.3.3 a value that is 'auto' or unset gives
    'single'. *)
Theorem getQuoteStyle_by_version (version : API) (config : WorkspaceConfiguration) :
  let user := config_get config "quoteStyle" in
  (APIv.gte version APIv.v333 = true →
     getQuoteStyle version config = config_get_or config "quoteStyle" (JStr "auto"))
  ∧ (user ≠ JUndefined → user ≠ JStr "auto" →
     getQuoteStyle version config = user)
  ∧ (APIv.lt version APIv.v333 = true →
     user = JStr "auto" ∨ user = JUndefined →
     getQuoteStyle version config = JStr "single").
Proof.
  unfold getQuoteStyle, config_get_or, config_get, APIv.lt.
  destruct (APIv.gte version APIv.v333); cbn [orb negb].
  - split; [done|]. split; [|done]. intros Hset _.
    by destruct (cfg_lookup config "quoteStyle").
  - split; [done|]. split.
    + intros Hset Hauto. destruct (cfg_lookup config "quoteStyle") as [| |b|n|q];
        try done. cbn [loose_ne_word].
      destruct (String.eqb q "auto") eqn:Eq; [|done].
      apply String.eqb_eq in Eq. by subst q.
    + intros _ [-> | ->]; done.
Qed.

Lemma getQuoteStyle_by_version_witness :
  getQuoteStyle (mkAPI 4 5 0) (single_setting "quoteStyle" (JStr "auto")) = JStr "auto"
  ∧ getQuoteStyle (mkAPI 3 0 0) (single_setting "quoteStyle" (JStr "double")) = JStr "double"
  ∧ getQuoteStyle (mkAPI 3 0 0) (single_setting "quoteStyle" (JStr "auto")) = JStr "single"
  ∧ getQuoteStyle (mkAPI 3 3 2) (single_setting "other" JNull) = JStr "single".
Proof.
  split; [|split; [|split]].
  - destruct (getQuoteStyle_by_version (mkAPI 4 5 0)
                (single_setting "quoteStyle" (JStr "auto"))) as (H & _ & _).
    apply H. reflexivity.
  - destruct (getQuoteStyle_by_version (mkAPI 3 0 0)
                (single_setting "quoteStyle" (JStr "double"))) as (_ & H & _).
    apply H; vm_compute; discriminate.
  - destruct (getQuoteStyle_by_version (mkAPI 3 0 0)
                (single_setting "quoteStyle" (JStr "auto"))) as (_ & _ & H).
    apply H; [reflexivity | by left].
  - destruct (getQuoteStyle_by_version (mkAPI 3 3 2)
                (single_setting "other" JNull)) as (_ & _ & H).
    apply H; [reflexivity | by right].
Defined.

(** C8: for every format options input, the derived snapshot carries the
    editor's tab size in [tabSize] and in [indentSize] and its insert-spaces
    flag in [convertTabsToSpaces], unchanged; a call that misses the cache
    sends them in its 'configure' request, so with tabSize 2 and insertSpaces
    true the payload has tabSize 2, indentSize 2, convertTabsToSpaces true. *)
Theorem getFormatOptions_copies_indentation client workspace document
    insertSpaces tabSize token (s : State) :
  (∀ language u,
     let derived :=
       getFormatOptions workspace (mkFormatOptions tabSize insertSpaces) language u in
     obj_get derived "tabSize" = tabSize
     ∧ obj_get derived "indentSize" = tabSize
     ∧ obj_get derived "convertTabsToSpaces" = insertSpaces)
  ∧ (cache_hit (cachedMap s !! uri document)
       (candidate client workspace document insertSpaces tabSize) = false →
     ∃ args rest,
       trace (ensureConfigurationOptions client workspace document insertSpaces
                tabSize token s).2 =
       trace s ++ EvExecute "configure" args CancellationToken_None :: rest
       ∧ obj_get (arg_formatOptions args) "tabSize" = tabSize
       ∧ obj_get (arg_formatOptions args) "indentSize" = tabSize
       ∧ obj_get (arg_formatOptions args) "convertTabsToSpaces" = insertSpaces).
Proof.
  split; [done|]. intros Hmiss.
  destruct (ensure_miss_sends client workspace document insertSpaces tabSize
              token s Hmiss) as [rest Hrest].
  eexists _, rest. split; [exact Hrest|]. done.
Qed.

Lemma getFormatOptions_copies_indentation_witness :
  ∃ args rest,
    trace (ensureConfigurationOptions client_ok unset_workspace doc_a
             (JBool true) (JNum 2) (Token 1) cold).2 =
    trace cold ++ EvExecute "configure" args CancellationToken_None :: rest
    ∧ obj_get (arg_formatOptions args) "tabSize" = JNum 2
    ∧ obj_get (arg_formatOptions args) "indentSize" = JNum 2
    ∧ obj_get (arg_formatOptions args) "convertTabsToSpaces" = JBool true.
Proof.
  destruct (getFormatOptions_copies_indentation client_ok unset_workspace doc_a
              (JBool true) (JNum 2) (Token 1) cold) as [_ H].
  apply H. reflexivity.
Defined.

(** The switch of [getImportModuleSpecifier] has three cases and a default. *)
Lemma getImportModuleSpecifier_switch (config : WorkspaceConfiguration) :
  let val := config_get config "importModuleSpecifier" in
  (val ∈ [JStr "project-relative"; JStr "relative"; JStr "non-relative"] →
     getImportModuleSpecifier config = val)
  ∧ (val ∉ [JStr "project-relative"; JStr "relative"; JStr "non-relative"] →
     getImportModuleSpecifier config = JUndefined).
Proof.
  intros val. unfold getImportModuleSpecifier. fold val.
  destruct (strict_eq val (JStr "project-relative")) eqn:E1.
  { apply strict_eq_true in E1. rewrite E1. split; [done|].
    intros H. exfalso. apply H. set_solver. }
  destruct (strict_eq val (JStr "relative")) eqn:E2.
  { apply strict_eq_true in E2. rewrite E2. split; [done|].
    intros H. exfalso. apply H. set_solver. }
  destruct (strict_eq val (JStr "non-relative")) eqn:E3.
  { apply strict_eq_true in E3. rewrite E3. split; [done|].
    intros H. exfalso. apply H. set_solver. }
  split; [|done]. intros H.
  apply elem_of_cons in H as [-> | H]; [by rewrite strict_eq_refl in E1|].
  apply elem_of_cons in H as [-> | H]; [by rewrite strict_eq_refl in E2|].
  apply list_elem_of_singleton in H as ->. by rewrite strict_eq_refl in E3.
Qed.

(** C9 (as amended): from version 2.9.0 on, the configured values
    'project-relative', 'relative' and 'non-relative' are passed through to
    the backend: they are the property [importModuleSpecifierPreference] of
    the derived preferences, which a call that misses the cache sends as the
    preferences of its 'configure' request.  Every other value of the
    setting, 'shortest' and an unset value among them, gives [undefined]
    there.  Below version 2.9.0 the preferences are empty and no import
    specifier style is passed at all. *)
Theorem importModuleSpecifier_reaches_backend client workspace document
    insertSpaces tabSize token (s : State) :
  let language :=
    if isTypeScriptDocument (languageId document) then "typescript"
    else "javascript" in
  let val :=
    config_get
      (getConfiguration workspace (language ++ ".preferences")%string
         (Some (uri document)))
      "importModuleSpecifier" in
  let derived :=
    getPreferences workspace (apiVersion client) language (uri document) in
  (APIv.gte (apiVersion client) APIv.v290 = true →
     (val ∈ [JStr "project-relative"; JStr "relative"; JStr "non-relative"] →
        obj_get derived "importModuleSpecifierPreference" = val)
     ∧ (val ∉ [JStr "project-relative"; JStr "relative"; JStr "non-relative"] →
        obj_get derived "importModuleSpecifierPreference" = JUndefined))
  ∧ (APIv.lt (apiVersion client) APIv.v290 = true →
     derived = []
     ∧ obj_get derived "importModuleSpecifierPreference" = JUndefined)
  ∧ (cache_hit (cachedMap s !! uri document)
       (candidate client workspace document insertSpaces tabSize) = false →
     ∃ args rest,
       trace (ensureConfigurationOptions client workspace document insertSpaces
                tabSize token s).2 =
       trace s ++ EvExecute "configure" args CancellationToken_None :: rest
       ∧ arg_preferences args = derived).
Proof.
  intros language val derived. split; [|split].
  - intros Hgte.
    assert (obj_get derived "importModuleSpecifierPreference"
            = getImportModuleSpecifier
                (getConfiguration workspace (language ++ ".preferences")%string
                   (Some (uri document)))) as ->.
    { unfold derived, getPreferences, APIv.lt. rewrite Hgte. reflexivity. }
    apply getImportModuleSpecifier_switch.
  - intros Hlt. unfold derived, getPreferences. by rewrite Hlt.
  - intros Hmiss.
    destruct (ensure_miss_sends client workspace document insertSpaces tabSize
                token s Hmiss) as [rest Hrest].
    eexists _, rest. split; [exact Hrest|]. reflexivity.
Qed.

Lemma importModuleSpecifier_reaches_backend_witness :
  let workspace :=
    workspace_with "typescript.preferences" "importModuleSpecifier"
      (JStr "relative") in
  (∃ args rest,
     trace (ensureConfigurationOptions client_ok workspace doc_a (JBool true)
              (JNum 2) (Token 1) cold).2 =
     trace cold ++ EvExecute "configure" args CancellationToken_None :: rest
     ∧ arg_preferences args
       = getPreferences workspace (mkAPI 4 5 0) "typescript" "file:///a.ts")
  ∧ obj_get (getPreferences workspace (mkAPI 4 5 0) "typescript" "file:///a.ts")
      "importModuleSpecifierPreference" = JStr "relative"
  ∧ obj_get (getPreferences workspace (mkAPI 2 8 0) "typescript" "file:///a.ts")
      "importModuleSpecifierPreference" = JUndefined.
Proof.
  intros workspace. split; [|split].
  - destruct (importModuleSpecifier_reaches_backend client_ok workspace doc_a
                (JBool true) (JNum 2) (Token 1) cold) as (_ & _ & H).
    apply H. reflexivity.
  - destruct (importModuleSpecifier_reaches_backend client_ok workspace doc_a
                (JBool true) (JNum 2) (Token 1) cold) as (H & _ & _).
    destruct (H eq_refl) as [Hin _]. apply Hin.
    apply elem_of_cons. right. apply elem_of_cons. by left.
  - destruct (importModuleSpecifier_reaches_backend client_old workspace doc_a
                (JBool true) (JNum 2) (Token 1) cold) as (_ & H & _).
    apply H. reflexivity.
Defined.

(** C9 (as stated) fails: the configured value 'shortest' is not passed
    through, it gives [undefined] although the setting is set. *)
Lemma getImportModuleSpecifier_drops_shortest :
  let config := single_setting "importModuleSpecifier" (JStr "shortest") in
  config_get config "importModuleSpecifier" = JStr "shortest"
  ∧ getImportModuleSpecifier config = JUndefined
  ∧ getImportModuleSpecifier config ≠ JStr "shortest".
Proof. vm_compute. repeat split; discriminate. Qed.

(** ** Document close *)

(** C6: the close handler never raises; run on a state with no entry for the
    document (never put, or already closed) it changes nothing, so running it
    twice is running it once; and after it has run, the next call of
    [ensureConfigurationOptions] for the document sends a 'configure'
    request, whatever its settings and format options. *)
Theorem close_is_idempotent_and_forces_resend (document : TextDocument)
    (s : State) :
  let closed := (onDidCloseTextDocument document s).2 in
  (onDidCloseTextDocument document s).1 = Resolves tt
  ∧ (cachedMap s !! uri document = None →
     onDidCloseTextDocument document s = (Resolves tt, s))
  ∧ onDidCloseTextDocument document closed = (Resolves tt, closed)
  ∧ cachedMap closed !! uri document = None
  ∧ ∀ client workspace insertSpaces tabSize token,
      ∃ rest,
        trace (ensureConfigurationOptions client workspace document
                 insertSpaces tabSize token closed).2 =
        trace closed ++
          EvExecute "configure"
            (configure_args client document
               (candidate client workspace document insertSpaces tabSize))
            CancellationToken_None :: rest.
Proof.
  assert (∀ s' : State, cachedMap s' !! uri document = None →
            onDidCloseTextDocument document s' = (Resolves tt, s')) as Habsent.
  { intros [m n tr] Hnone. unfold onDidCloseTextDocument, Map_delete.
    cbn [cachedMap requests trace] in *. by rewrite delete_id. }
  assert (cachedMap (onDidCloseTextDocument document s).2 !! uri document = None)
    as Hgone by apply lookup_delete_eq.
  cbn zeta. split; [done|]. split; [apply Habsent|].
  split; [by apply Habsent|]. split; [done|].
  intros. by apply ensure_absent_sends.
Qed.

Lemma close_is_idempotent_and_forces_resend_witness :
  onDidCloseTextDocument doc_a cold = (Resolves tt, cold).
Proof.
  destruct (close_is_idempotent_and_forces_resend doc_a cold) as (_ & H & _).
  apply H. reflexivity.
Defined.

(** ** ensureConfigurationForDocument *)

(** C10: with an entry for the document in the cache, the call is the call of
    [ensureConfigurationOptions] with the cached [convertTabsToSpaces] as
    insertSpaces and the cached [tabSize] as tabSize, and the editor's format
    options are not queried; with no entry, they are queried first, once, and
    the call continues with what the editor answered. *)
Theorem ensureConfigurationForDocument_reads_cache_first client workspace
    document token (s : State) :
  (∀ cached, cachedMap s !! uri document = Some cached →
     ensureConfigurationForDocument client workspace document token s =
     ensureConfigurationOptions client workspace document
       (obj_get (formatOptions cached) "convertTabsToSpaces")
       (obj_get (formatOptions cached) "tabSize") token s
     ∧ ∃ evs,
         trace (ensureConfigurationForDocument client workspace document token s).2
           = trace s ++ evs
         ∧ forallb (fun e => negb (is_query e)) evs = true)
  ∧ (cachedMap s !! uri document = None →
     let editor := ws_getFormatOptions workspace (uri document) in
     let asked :=
       mkState (cachedMap s) (requests s)
         (trace s ++ [EvGetFormatOptions (uri document)]) in
     ensureConfigurationForDocument client workspace document token s =
     ensureConfigurationOptions client workspace document
       (insertSpaces editor) (tabSize editor) token asked
     ∧ ∃ evs,
         trace (ensureConfigurationForDocument client workspace document token s).2
           = trace s ++ EvGetFormatOptions (uri document) :: evs
         ∧ forallb (fun e => negb (is_query e)) evs = true).
Proof.
  split.
  - intros cached Hsome.
    assert (ensureConfigurationForDocument client workspace document token s =
            ensureConfigurationOptions client workspace document
              (obj_get (formatOptions cached) "convertTabsToSpaces")
              (obj_get (formatOptions cached) "tabSize") token s) as Heq.
    { unfold ensureConfigurationForDocument.
      unfold mbind at 1 2, M_bind at 1 2, Map_get at 1. by rewrite Hsome. }
    split; [exact Heq|]. rewrite Heq. apply ensure_emits_no_query.
  - intros Hnone editor asked.
    assert (ensureConfigurationForDocument client workspace document token s =
            ensureConfigurationOptions client workspace document
              (insertSpaces editor) (tabSize editor) token asked) as Heq.
    { unfold ensureConfigurationForDocument.
      unfold mbind at 1 2, M_bind at 1 2, Map_get at 1. by rewrite Hnone. }
    split; [exact Heq|]. rewrite Heq.
    destruct (ensure_emits_no_query client workspace document
                (insertSpaces editor) (tabSize editor) token asked)
      as (evs & Htrace & Hevs).
    exists evs. split; [|exact Hevs]. rewrite Htrace. unfold asked.
    cbn [trace]. by rewrite <- app_assoc.
Qed.

Lemma ensureConfigurationForDocument_reads_cache_first_witness :
  (∃ evs,
     trace (ensureConfigurationForDocument client_ok unset_workspace doc_a
              (Token 1) cold).2
       = trace cold ++ EvGetFormatOptions (uri doc_a) :: evs
     ∧ forallb (fun e => negb (is_query e)) evs = true)
  ∧ ∃ evs,
      let warm := (ensureConfigurationOptions client_ok unset_workspace doc_a
                     (JBool true) (JNum 2) (Token 1) cold).2 in
      trace (ensureConfigurationForDocument client_ok unset_workspace doc_a
               (Token 2) warm).2
        = trace warm ++ evs
      ∧ forallb (fun e => negb (is_query e)) evs = true.
Proof.
  split.
  - destruct (ensureConfigurationForDocument_reads_cache_first client_ok
                unset_workspace doc_a (Token 1) cold) as [_ H].
    apply H. reflexivity.
  - destruct (ensureConfigurationForDocument_reads_cache_first client_ok
                unset_workspace doc_a (Token 2)
                (ensureConfigurationOptions client_ok unset_workspace doc_a
                   (JBool true) (JNum 2) (Token 1) cold).2) as [H _].
    apply (H (candidate client_ok unset_workspace doc_a (JBool true) (JNum 2))).
    vm_compute. reflexivity.
Defined.

(** * Further properties of the code *)

(** ** Objects and their comparison *)

Lemma obj_get_absent (o : Obj) (key : string) :
  key ∉ Object_keys o → obj_get o key = JUndefined.
Proof.
  induction o as [|[k v] rest IH]; simpl; [done|]. intros Hnot.
  destruct (String.eqb key k) eqn:E.
  - apply String.eqb_eq in E. subst. exfalso. apply Hnot. left.
  - apply IH. intros Hin. apply Hnot. by right.
Qed.

Lemma obj_get_permutation (a a' : Obj) (key : string) :
  NoDup (Object_keys a) → a ≡ₚ a' → obj_get a key = obj_get a' key.
Proof.
  intros Hnd Hperm. induction Hperm as [|[k v] l l' Hp IH|[k1 v1] [k2 v2] l|l l' l'' H1 IH1 H2 IH2].
  - done.
  - simpl. destruct (String.eqb key k); [done|]. apply IH.
    by apply NoDup_cons in Hnd as [_ ?].
  - simpl. destruct (String.eqb key k1) eqn:E1, (String.eqb key k2) eqn:E2; try done.
    apply String.eqb_eq in E1, E2. subst.
    cbn in Hnd. apply NoDup_cons in Hnd as [Hnot _]. exfalso. apply Hnot. left.
  - rewrite IH1 by done. apply IH2. unfold Object_keys in *.
    by rewrite <- H1.
Qed.

(** X1: on objects (unique keys) the answer of [objAreEqual] does not depend
    on the order in which either argument lists its properties. *)
Theorem objAreEqual_key_order (a a' b b' : Obj) :
  NoDup (Object_keys a) → NoDup (Object_keys b) →
  a ≡ₚ a' → b ≡ₚ b' →
  objAreEqual a b = objAreEqual a' b'.
Proof.
  intros Ha Hb Hpa Hpb. apply Bool.eq_true_iff_eq. rewrite !objAreEqual_true.
  assert (∀ key, key ∈ Object_keys a ↔ key ∈ Object_keys a') as Hkeys.
  { intros key. unfold Object_keys. by rewrite Hpa. }
  split; intros H key Hin.
  - rewrite <- (obj_get_permutation a a') by done.
    rewrite <- (obj_get_permutation b b') by done. apply H. by apply Hkeys.
  - rewrite (obj_get_permutation a a') by done.
    rewrite (obj_get_permutation b b') by done. apply H. by apply Hkeys.
Qed.

Lemma objAreEqual_key_order_witness :
  objAreEqual [("tabSize", JNum 2); ("semicolons", JUndefined)]
              [("tabSize", JNum 2); ("indentSize", JNum 2)]
  = objAreEqual [("semicolons", JUndefined); ("tabSize", JNum 2)]
                [("indentSize", JNum 2); ("tabSize", JNum 2)].
Proof.
  apply objAreEqual_key_order.
  - apply (bool_decide_unpack _). by vm_compute.
  - apply (bool_decide_unpack _). by vm_compute.
  - apply perm_swap.
  - apply perm_swap.
Defined.

Lemma objAreEqual_same_keys (a b : Obj) :
  Object_keys a = Object_keys b → NoDup (Object_keys a) →
  objAreEqual a b = true → a = b.
Proof.
  revert b. induction a as [|[k v] a IH]; intros [|[k' w] b] Hkeys Hnd Heq;
    try done.
  cbn in Hkeys. injection Hkeys as <- Hkeys.
  apply NoDup_cons in Hnd as [Hnot Hnd].
  rewrite objAreEqual_true in Heq.
  assert (v = w) as <-.
  { specialize (Heq k). cbn in Heq. rewrite String.eqb_refl in Heq.
    apply Heq. left. }
  f_equal. apply IH; [done..|]. apply objAreEqual_true. intros key Hin.
  specialize (Heq key). cbn in Heq.
  destruct (String.eqb key k) eqn:E.
  - apply String.eqb_eq in E. by subst.
  - apply Heq. by right.
Qed.

(** X2: on two objects that list the same keys in the same order, each key
    once, [objAreEqual] is structural equality. *)
Theorem objAreEqual_exact_on_same_keys (a b : Obj) :
  Object_keys a = Object_keys b → NoDup (Object_keys a) →
  (objAreEqual a b = true ↔ a = b).
Proof.
  intros Hkeys Hnd. split.
  - by apply objAreEqual_same_keys.
  - intros ->. apply objAreEqual_refl.
Qed.

Lemma objAreEqual_exact_on_same_keys_witness :
  objAreEqual [("tabSize", JNum 2); ("indentSize", JNum 2)]
              [("tabSize", JNum 2); ("indentSize", JNum 4)] = true
  ↔ [("tabSize", JNum 2); ("indentSize", JNum 2)]
    = [("tabSize", JNum 2); ("indentSize", JNum 4)].
Proof.
  apply objAreEqual_exact_on_same_keys.
  - reflexivity.
  - apply (bool_decide_unpack _). by vm_compute.
Defined.

(** ** The shape of the derived snapshot *)

Lemma FormatCodeSettings_keys_NoDup : NoDup FormatCodeSettings_keys.
Proof. apply (bool_decide_unpack _). by vm_compute. Qed.

Lemma UserPreferences_keys_NoDup : NoDup UserPreferences_keys.
Proof. apply (bool_decide_unpack _). by vm_compute. Qed.

Lemma getFormatOptions_keys workspace options language u :
  Object_keys (getFormatOptions workspace options language u)
  = FormatCodeSettings_keys.
Proof. reflexivity. Qed.

Lemma getPreferences_keys workspace version language u :
  Object_keys (getPreferences workspace version language u)
  = if APIv.lt version APIv.v290 then [] else UserPreferences_keys.
Proof.
  unfold getPreferences. destruct (APIv.lt version APIv.v290); reflexivity.
Qed.

(** X3: whatever the settings, the editor's options and the language, the
    derived format options have the same 21 properties in the same order (a
    setting that is unset is a property whose value is [undefined]), and
    [newLineCharacter] is the line feed. *)
Theorem getFormatOptions_shape workspace options language u :
  Object_keys (getFormatOptions workspace options language u)
  = FormatCodeSettings_keys
  ∧ length (getFormatOptions workspace options language u) = 21
  ∧ obj_get (getFormatOptions workspace options language u) "newLineCharacter"
    = JStr (String (Ascii.ascii_of_nat 10) "")
  ∧ ∀ key, key ∈ FormatCodeSettings_keys →
      key ∉ ["tabSize"; "indentSize"; "convertTabsToSpaces"; "newLineCharacter"] →
      obj_get (getFormatOptions workspace options language u) key
      = config_get (getConfiguration workspace (language ++ ".format")%string (Some u)) key.
Proof.
  split; [reflexivity|]. split; [reflexivity|]. split; [reflexivity|].
  intros key Hin Hnot. unfold FormatCodeSettings_keys in Hin.
  repeat (apply elem_of_cons in Hin as [-> | Hin];
          [first [reflexivity | exfalso; apply Hnot; set_solver]|]).
  apply list_elem_of_singleton in Hin as ->.
  change (config_get_or (getConfiguration workspace (language ++ ".format")%string (Some u))
            "semicolons" JUndefined
          = config_get (getConfiguration workspace (language ++ ".format")%string (Some u))
              "semicolons").
  unfold config_get_or, config_get. by destruct (cfg_lookup _ _).
Qed.

(** X4: the derived preferences are all or nothing: below version 2.9.0 they
    have no property, from 2.9.0 on they have the same 24 properties in the
    same order whatever the settings, the language and the document. *)
Theorem getPreferences_all_or_nothing workspace version language u :
  (APIv.lt version APIv.v290 = true ∧
   getPreferences workspace version language u = [])
  ∨ (APIv.gte version APIv.v290 = true ∧
     Object_keys (getPreferences workspace version language u) = UserPreferences_keys
     ∧ length (getPreferences workspace version language u) = 24).
Proof.
  unfold getPreferences, APIv.lt.
  destruct (APIv.gte version APIv.v290); cbn [negb]; [right | left]; done.
Qed.

Lemma cache_hit_exact_on_derived_aux version workspace1 options1 document1
    workspace2 options2 document2 :
  cache_hit (Some (getFileOptions workspace1 version options1 document1))
    (getFileOptions workspace2 version options2 document2) = true →
  getFileOptions workspace1 version options1 document1
  = getFileOptions workspace2 version options2 document2.
Proof.
  unfold cache_hit. rewrite andb_true_iff. intros [Hf Hp].
  unfold getFileOptions in *. cbn [formatOptions preferences] in *. f_equal.
  - apply objAreEqual_same_keys; [| |done].
    + by rewrite !getFormatOptions_keys.
    + rewrite getFormatOptions_keys. apply FormatCodeSettings_keys_NoDup.
  - apply objAreEqual_same_keys; [| |done].
    + by rewrite !getPreferences_keys.
    + rewrite getPreferences_keys.
      destruct (APIv.lt version APIv.v290);
        [apply NoDup_nil_2 | apply UserPreferences_keys_NoDup].
Qed.

(** X5: for two snapshots derived under the same API version, whatever the
    settings, the options and the documents they were derived from, the test
    of the fast path answers [true] exactly when the snapshots are equal. *)
Theorem cache_hit_exact_on_derived version workspace1 options1 document1
    workspace2 options2 document2 :
  let cached := getFileOptions workspace1 version options1 document1 in
  let current := getFileOptions workspace2 version options2 document2 in
  cache_hit (Some cached) current = true ↔ cached = current.
Proof.
  intros cached current. split; [|intros ->; apply cache_hit_refl].
  apply cache_hit_exact_on_derived_aux.
Qed.

Lemma getFormatOptions_shape_witness :
  obj_get (getFormatOptions
             (workspace_with "typescript.format" "insertSpaceAfterConstructor" (JBool true))
             (mkFormatOptions (JNum 2) (JBool true)) "typescript" "file:///a.ts")
    "insertSpaceAfterConstructor" = JBool true.
Proof.
  destruct (getFormatOptions_shape
              (workspace_with "typescript.format" "insertSpaceAfterConstructor" (JBool true))
              (mkFormatOptions (JNum 2) (JBool true)) "typescript" "file:///a.ts")
    as (_ & _ & _ & H).
  apply (H "insertSpaceAfterConstructor").
  - apply (bool_decide_unpack _). by vm_compute.
  - apply (bool_decide_unpack _). by vm_compute.
Defined.

Lemma cache_hit_exact_on_derived_witness :
  cache_hit
    (Some (getFileOptions unset_workspace (mkAPI 4 5 0)
             (mkFormatOptions (JNum 2) (JBool true)) doc_a))
    (getFileOptions unset_workspace (mkAPI 4 5 0)
       (mkFormatOptions (JNum 4) (JBool true)) doc_a) = false.
Proof.
  apply Bool.not_true_is_false. intros H.
  apply (cache_hit_exact_on_derived (mkAPI 4 5 0) unset_workspace
           (mkFormatOptions (JNum 2) (JBool true)) doc_a unset_workspace
           (mkFormatOptions (JNum 4) (JBool true)) doc_a) in H.
  discriminate H.
Defined.

(** ** Idempotence: the entry the second call finds *)

(** C1 (as amended): two immediately successive calls with the same settings
    and format options.  When the first call either takes the fast path or
    has both its sends fulfilled, the deadline-bound one with a response of
    type 'response', the second call finds an entry for the document that the
    comparison of the fast path accepts against the candidate snapshot; that
    entry is the candidate itself when the first call missed the cache, and
    it equals the candidate whenever it was derived under the API version of
    the calls.  The second call then resolves at once: it sends nothing and
    leaves the cache (the whole state) as it is.  The pair issues one
    'configure' sequence when the first call missed the cache and none when
    it hit. *)
Theorem ensure_twice_second_is_silent client workspace document insertSpaces
    tabSize token token' (s : State) :
  let cur := candidate client workspace document insertSpaces tabSize in
  cache_hit (cachedMap s !! uri document) cur = true
  ∨ ((∃ t, server client (requests s) = Fulfilled t)
     ∧ server client (S (requests s)) = Fulfilled "response") →
  let '(r1, s1) := ensureConfigurationOptions client workspace document
                     insertSpaces tabSize token s in
  let '(r2, s2) := ensureConfigurationOptions client workspace document
                     insertSpaces tabSize token' s1 in
  r1 = Resolves tt ∧ r2 = Resolves tt ∧ s2 = s1
  ∧ trace s2 = trace s ++
      (if cache_hit (cachedMap s !! uri document) cur then []
       else configure_sequence client document cur token)
  ∧ ∃ entry,
      cachedMap s1 !! uri document = Some entry
      ∧ cache_hit (Some entry) cur = true
      ∧ (cache_hit (cachedMap s !! uri document) cur = false → entry = cur)
      ∧ (∀ workspace0 options0 document0,
           entry = getFileOptions workspace0 (apiVersion client) options0 document0 →
           entry = cur).
Proof.
  intros cur H.
  assert (∀ entry, cache_hit (Some entry) cur = true →
            ∀ workspace0 options0 document0,
              entry = getFileOptions workspace0 (apiVersion client) options0 document0 →
              entry = cur) as Hsame.
  { intros entry Hhit workspace0 options0 document0 Hentry. subst entry.
    by apply cache_hit_exact_on_derived_aux. }
  destruct (cache_hit (cachedMap s !! uri document) cur) eqn:E.
  - rewrite !ensure_hit by done. rewrite app_nil_r.
    do 4 (split; [done|]).
    destruct (cachedMap s !! uri document) as [entry|] eqn:Hentry; [|done].
    exists entry. split; [done|]. split; [done|]. split; [done|].
    by apply Hsame.
  - destruct H as [H | [[t Ht] Hresp]]; [done|].
    rewrite ensure_miss by done. cbn zeta. rewrite Ht, Hresp, String.eqb_refl.
    rewrite ensure_hit.
    + do 4 (split; [done|]). exists cur. cbn [cachedMap].
      rewrite lookup_insert_eq. split; [done|].
      split; [apply cache_hit_refl|]. split; [done|]. intros. done.
    + cbn [cachedMap]. rewrite lookup_insert_eq. apply cache_hit_refl.
Qed.

Lemma ensure_twice_second_is_silent_witness :
  let s1 := (ensureConfigurationOptions client_ok unset_workspace doc_a
               (JBool true) (JNum 2) (Token 1) cold).2 in
  let cur := candidate client_ok unset_workspace doc_a (JBool true) (JNum 2) in
  trace (ensureConfigurationOptions client_ok unset_workspace doc_a
           (JBool true) (JNum 2) (Token 2) s1).2
  = configure_sequence client_ok doc_a cur (Token 1)
  ∧ cachedMap s1 !! uri doc_a = Some cur.
Proof.
  pose proof (ensure_twice_second_is_silent client_ok unset_workspace doc_a
                (JBool true) (JNum 2) (Token 1) (Token 2) cold) as H.
  cbn zeta in H. cbn zeta.
  destruct (ensureConfigurationOptions client_ok unset_workspace doc_a
              (JBool true) (JNum 2) (Token 1) cold) as [r1 s1].
  cbn [snd].
  destruct (ensureConfigurationOptions client_ok unset_workspace doc_a
              (JBool true) (JNum 2) (Token 2) s1) as [r2 s2].
  cbn [snd].
  destruct H as (_ & _ & _ & H & entry & Hentry & _ & Hmiss & _).
  - right. split; [by exists "response" | reflexivity].
  - split; [exact H|]. rewrite Hentry. f_equal. apply Hmiss. reflexivity.
Defined.

(** ** The cache protocol *)

Lemma ensureConfigurationForDocument_cached client workspace document token
    (s : State) (cached : FileConfiguration) :
  cachedMap s !! uri document = Some cached →
  ensureConfigurationForDocument client workspace document token s =
  ensureConfigurationOptions client workspace document
    (obj_get (formatOptions cached) "convertTabsToSpaces")
    (obj_get (formatOptions cached) "tabSize") token s.
Proof.
  intros Hsome. unfold ensureConfigurationForDocument.
  unfold mbind at 1 2, M_bind at 1 2, Map_get at 1. by rewrite Hsome.
Qed.

(** X6: a call rejects exactly when it misses the cache and its first send,
    the one without deadline, is rejected; in every other case it resolves,
    whatever happens to the deadline-bound send. *)
Theorem ensure_rejects_iff client workspace document insertSpaces tabSize token
    (s : State) :
  (ensureConfigurationOptions client workspace document insertSpaces tabSize
     token s).1 = Rejects
  ↔ cache_hit (cachedMap s !! uri document)
      (candidate client workspace document insertSpaces tabSize) = false
    ∧ server client (requests s) = Rejected.
Proof.
  destruct (cache_hit (cachedMap s !! uri document)
              (candidate client workspace document insertSpaces tabSize)) eqn:E.
  - rewrite ensure_hit by done. cbn. split; [done | by intros [? _]].
  - rewrite ensure_miss by done. cbn zeta.
    destruct (server client (requests s)) as [t0|]; [|done].
    destruct (server client (S (requests s))) as [t1|];
      [destruct (String.eqb t1 "response")|]; cbn; split; try done;
      by intros [_ ?].
Qed.

Lemma ensure_rejects_iff_witness :
  (ensureConfigurationOptions client_flaky unset_workspace doc_a (JBool true)
     (JNum 2) (Token 1) cold).1 ≠ Rejects.
Proof.
  intros H.
  apply (ensure_rejects_iff client_flaky unset_workspace doc_a (JBool true)
           (JNum 2) (Token 1) cold) in H.
  destruct H as [_ H]. discriminate H.
Defined.

(** X7: a call sends at most two requests: nothing, or the send without
    deadline alone, or that send followed by the deadline-bound one, both
    'configure' with the same arguments for the path of the document; the
    server has then received as many requests more. *)
Theorem ensure_traffic client workspace document insertSpaces tabSize token
    (s : State) :
  let s1 := (ensureConfigurationOptions client workspace document insertSpaces
               tabSize token s).2 in
  ∃ evs,
    trace s1 = trace s ++ evs
    ∧ requests s1 = requests s + length evs
    ∧ evs `prefix_of`
        configure_sequence client document
          (candidate client workspace document insertSpaces tabSize) token.
Proof.
  destruct (cache_hit (cachedMap s !! uri document)
              (candidate client workspace document insertSpaces tabSize)) eqn:E.
  - rewrite ensure_hit by done. exists []. cbn.
    rewrite app_nil_r, Nat.add_0_r. repeat split. apply prefix_nil.
  - rewrite ensure_miss by done. cbn zeta.
    destruct (server client (requests s)) as [t0|].
    + exists (configure_sequence client document
                (candidate client workspace document insertSpaces tabSize) token).
      destruct (server client (S (requests s))) as [t1|];
        [destruct (String.eqb t1 "response")|]; cbn;
        (split; [done|]; split; [lia|done]).
    + eexists [_]. cbn. split; [done|]. split; [lia|].
      by eexists [_].
Qed.

(** X8: a call touches the entry of its own document only. *)
Theorem ensure_frame client workspace document insertSpaces tabSize token
    (s : State) (other : string) :
  other ≠ uri document →
  cachedMap (ensureConfigurationOptions client workspace document insertSpaces
               tabSize token s).2 !! other
  = cachedMap s !! other.
Proof.
  intros Hne.
  destruct (cache_hit (cachedMap s !! uri document)
              (candidate client workspace document insertSpaces tabSize)) eqn:E.
  - by rewrite ensure_hit.
  - rewrite ensure_miss by done. cbn zeta.
    destruct (server client (requests s)) as [t0|];
      [destruct (server client (S (requests s))) as [t1|];
         [destruct (String.eqb t1 "response")|]|];
      cbn [snd cachedMap];
      rewrite ?lookup_delete_ne by done; by rewrite lookup_insert_ne.
Qed.

Lemma ensure_frame_witness :
  cachedMap (ensureConfigurationOptions client_flaky unset_workspace doc_b
               (JBool false) (JNum 8) (Token 2) warm).2 !! uri doc_a
  = cachedMap warm !! uri doc_a.
Proof.
  apply (ensure_frame client_flaky unset_workspace doc_b (JBool false) (JNum 8)
           (Token 2) warm (uri doc_a)).
  discriminate.
Defined.

(** X9: whenever a call leaves an entry for its document behind, however
    its sends ended, an immediately following call with the same settings
    and format options resolves without sending and without changing the
    state. *)
Theorem ensure_entry_left_means_silent client workspace document insertSpaces
    tabSize token token' (s : State) :
  let s1 := (ensureConfigurationOptions client workspace document insertSpaces
               tabSize token s).2 in
  cachedMap s1 !! uri document ≠ None →
  ensureConfigurationOptions client workspace document insertSpaces tabSize
    token' s1 = (Resolves tt, s1).
Proof.
  destruct (cache_hit (cachedMap s !! uri document)
              (candidate client workspace document insertSpaces tabSize)) eqn:E.
  - rewrite ensure_hit by done. cbn. intros _. by apply ensure_hit.
  - rewrite ensure_miss by done. cbn zeta.
    destruct (server client (requests s)) as [t0|];
      [destruct (server client (S (requests s))) as [t1|];
         [destruct (String.eqb t1 "response")|]|];
      cbn [snd cachedMap]; intros Hleft;
      try (by rewrite lookup_delete_eq in Hleft);
      (apply ensure_hit; cbn [cachedMap]; rewrite lookup_insert_eq;
       apply cache_hit_refl).
Qed.

Lemma ensure_entry_left_means_silent_witness :
  ensureConfigurationOptions client_down unset_workspace doc_a (JBool true)
    (JNum 2) (Token 2)
    (ensureConfigurationOptions client_down unset_workspace doc_a (JBool true)
       (JNum 2) (Token 1) cold).2
  = (Resolves tt,
     (ensureConfigurationOptions client_down unset_workspace doc_a (JBool true)
        (JNum 2) (Token 1) cold).2).
Proof.
  apply (ensure_entry_left_means_silent client_down unset_workspace doc_a
           (JBool true) (JNum 2) (Token 1) (Token 2) cold).
  vm_compute. discriminate.
Defined.

(** X10: [reset] never raises and sends nothing; it empties the cache, so
    that afterwards the next call for any document, whatever its settings
    and format options, sends a 'configure' request. *)
Theorem reset_forces_resend (s : State) :
  let cleared := (reset s).2 in
  (reset s).1 = Resolves tt
  ∧ cachedMap cleared = ∅
  ∧ trace cleared = trace s
  ∧ requests cleared = requests s
  ∧ ∀ client workspace document insertSpaces tabSize token,
      ∃ rest,
        trace (ensureConfigurationOptions client workspace document
                 insertSpaces tabSize token cleared).2 =
        trace cleared ++
          EvExecute "configure"
            (configure_args client document
               (candidate client workspace document insertSpaces tabSize))
            CancellationToken_None :: rest.
Proof.
  cbn zeta. repeat split. intros. apply ensure_absent_sends. apply lookup_empty.
Qed.

(** X11: the close handler sends nothing and removes the entry of the closed
    document only. *)
Theorem close_frame (document : TextDocument) (s : State) (other : string) :
  other ≠ uri document →
  let closed := (onDidCloseTextDocument document s).2 in
  cachedMap closed !! other = cachedMap s !! other
  ∧ trace closed = trace s
  ∧ requests closed = requests s.
Proof.
  intros Hne. cbn. by rewrite lookup_delete_ne.
Qed.

Lemma close_frame_witness :
  cachedMap (onDidCloseTextDocument doc_b warm).2 !! uri doc_a
  = cachedMap warm !! uri doc_a.
Proof.
  apply (close_frame doc_b warm (uri doc_a)). discriminate.
Defined.

(** X12: once the cache holds the snapshot derived for a document from given
    settings and format options, [ensureConfigurationForDocument] under the
    same settings reads the same format options back from the snapshot: it
    resolves without querying the editor, without sending and without
    changing the state, whatever the editor's format options are by then. *)
Theorem ensureConfigurationForDocument_round_trip client workspace document
    insertSpaces tabSize token (s : State) :
  cachedMap s !! uri document
    = Some (candidate client workspace document insertSpaces tabSize) →
  ensureConfigurationForDocument client workspace document token s
  = (Resolves tt, s).
Proof.
  intros Hsome.
  rewrite (ensureConfigurationForDocument_cached _ _ _ _ _ _ Hsome).
  change (obj_get (formatOptions
            (candidate client workspace document insertSpaces tabSize))
            "convertTabsToSpaces") with insertSpaces.
  change (obj_get (formatOptions
            (candidate client workspace document insertSpaces tabSize))
            "tabSize") with tabSize.
  apply ensure_hit. rewrite Hsome. apply cache_hit_refl.
Qed.

Lemma ensureConfigurationForDocument_round_trip_witness :
  ensureConfigurationForDocument client_ok unset_workspace doc_a (Token 2) warm
  = (Resolves tt, warm).
Proof.
  apply (ensureConfigurationForDocument_round_trip client_ok unset_workspace
           doc_a (JBool true) (JNum 2) (Token 2) warm).
  vm_compute. reflexivity.
Defined.



(** X14: an entry derived below version 2.9.0 has no preferences, and
    [objAreEqual] enumerates the keys of the cached side only: with such an
    entry in the cache, a call with the same settings and format options
    under any other API version takes the fast path and sends nothing,
    although the preferences derived now may differ from the cached ones. *)
Theorem ensure_silent_after_version_bump client client' workspace document
    insertSpaces tabSize token (s : State) :
  APIv.lt (apiVersion client) APIv.v290 = true →
  cachedMap s !! uri document
    = Some (candidate client workspace document insertSpaces tabSize) →
  ensureConfigurationOptions client' workspace document insertSpaces tabSize
    token s = (Resolves tt, s).
Proof.
  intros Hold Hsome. apply ensure_hit. rewrite Hsome.
  unfold cache_hit, candidate, getFileOptions. cbn [formatOptions preferences].
  rewrite objAreEqual_refl. unfold getPreferences at 1. by rewrite Hold.
Qed.

Lemma ensure_silent_after_version_bump_witness :
  let s := (ensureConfigurationOptions client_old unset_workspace doc_a
              (JBool true) (JNum 2) (Token 1) cold).2 in
  ensureConfigurationOptions client_ok unset_workspace doc_a (JBool true)
    (JNum 2) (Token 2) s = (Resolves tt, s)
  ∧ preferences (candidate client_ok unset_workspace doc_a (JBool true) (JNum 2))
    ≠ preferences (candidate client_old unset_workspace doc_a (JBool true) (JNum 2)).
Proof.
  split; [|discriminate].
  apply (ensure_silent_after_version_bump client_old client_ok unset_workspace
           doc_a (JBool true) (JNum 2) (Token 2)).
  - reflexivity.
  - vm_compute. reflexivity.
Defined.

(** ** The preferences *)

(** X15: from version 2.9.0 on, whatever the settings,
    [allowRenameOfImportPath], [useLabelDetailsInCompletionEntries],
    [allowIncompleteCompletions] and [displayPartsForJSDoc] are [true],
    [provideRefactorNotApplicableReason] is [false], and
    [allowTextChangesInNewFiles] tells whether the uri starts with 'file:';
    the inlay hints spread last into the literal overwrite none of them. *)
Theorem getPreferences_fixed_fields workspace version language u :
  APIv.gte version APIv.v290 = true →
  let preferences := getPreferences workspace version language u in
  obj_get preferences "allowRenameOfImportPath" = JBool true
  ∧ obj_get preferences "provideRefactorNotApplicableReason" = JBool false
  ∧ obj_get preferences "useLabelDetailsInCompletionEntries" = JBool true
  ∧ obj_get preferences "allowIncompleteCompletions" = JBool true
  ∧ obj_get preferences "displayPartsForJSDoc" = JBool true
  ∧ obj_get preferences "allowTextChangesInNewFiles"
    = JBool (String.prefix "file:" u).
Proof.
  intros H. unfold getPreferences, APIv.lt. rewrite H. cbn [negb].
  repeat split.
Qed.

Lemma getPreferences_fixed_fields_witness :
  obj_get (getPreferences unset_workspace (mkAPI 4 5 0) "typescript" "untitled:1")
    "allowTextChangesInNewFiles" = JBool false.
Proof.
  apply (getPreferences_fixed_fields unset_workspace (mkAPI 4 5 0) "typescript"
           "untitled:1").
  reflexivity.
Defined.

(** X16: from version 2.9.0 on, [providePrefixAndSuffixTextForRename] is
    [false] whenever the setting renameShorthandProperties is [false],
    whatever useAliasesForRenames says; otherwise it is the setting
    useAliasesForRenames, [true] when that one is unset. *)
Theorem getPreferences_rename_aliases workspace version language u :
  APIv.gte version APIv.v290 = true →
  let preferencesConfig :=
    getConfiguration workspace (language ++ ".preferences")%string (Some u) in
  let answer :=
    obj_get (getPreferences workspace version language u)
      "providePrefixAndSuffixTextForRename" in
  (config_get preferencesConfig "renameShorthandProperties" = JBool false →
     answer = JBool false)
  ∧ (config_get preferencesConfig "renameShorthandProperties" ≠ JBool false →
     answer = config_get_or preferencesConfig "useAliasesForRenames" (JBool true)).
Proof.
  intros H preferencesConfig answer. unfold answer, getPreferences, APIv.lt.
  rewrite H. cbn [negb].
  change (obj_get _ "providePrefixAndSuffixTextForRename") with
    (if strict_eq
          (config_get_or preferencesConfig "renameShorthandProperties" (JBool true))
          (JBool false)
     then JBool false
     else config_get_or preferencesConfig "useAliasesForRenames" (JBool true)).
  unfold config_get_or at 1 3, config_get. split.
  - by intros ->.
  - intros Hne. destruct (cfg_lookup preferencesConfig "renameShorthandProperties")
      as [| |[]| |]; done.
Qed.

Lemma getPreferences_rename_aliases_witness :
  obj_get (getPreferences
             (workspace_with "typescript.preferences" "renameShorthandProperties"
                (JBool false))
             (mkAPI 4 5 0) "typescript" "file:///a.ts")
    "providePrefixAndSuffixTextForRename" = JBool false
  ∧ obj_get (getPreferences
               (workspace_with "typescript.preferences" "useAliasesForRenames"
                  (JBool false))
               (mkAPI 4 5 0) "typescript" "file:///a.ts")
      "providePrefixAndSuffixTextForRename" = JBool false.
Proof.
  split.
  - destruct (getPreferences_rename_aliases
                (workspace_with "typescript.preferences" "renameShorthandProperties"
                   (JBool false))
                (mkAPI 4 5 0) "typescript" "file:///a.ts" eq_refl) as [H _].
    apply H. reflexivity.
  - destruct (getPreferences_rename_aliases
                (workspace_with "typescript.preferences" "useAliasesForRenames"
                   (JBool false))
                (mkAPI 4 5 0) "typescript" "file:///a.ts" eq_refl) as [_ H].
    apply H. vm_compute. discriminate.
Defined.

(** X17: the three enumerated settings are sanitised: the import specifier
    ending is always one of 'minimal', 'index', 'js', 'auto', the JSX
    attribute completion style one of 'braces', 'none', 'auto', the inlay
    parameter name hints one of 'none', 'literals', 'all' or [undefined]; a
    stored value of the enumeration is passed through, and anything else
    (another string, a value of another type, an unset setting) gives the
    default. *)
Theorem enumerated_settings_are_sanitised (config : WorkspaceConfiguration) :
  let ending := config_get config "importModuleSpecifierEnding" in
  let jsx := config_get config "jsxAttributeCompletionStyle" in
  let hints := config_get config "inlayHints.parameterNames.enabled" in
  (getImportModuleSpecifierEndingPreference config
     ∈ [JStr "minimal"; JStr "index"; JStr "js"; JStr "auto"]
   ∧ (ending ∈ [JStr "minimal"; JStr "index"; JStr "js"] →
      getImportModuleSpecifierEndingPreference config = ending)
   ∧ (ending ∉ [JStr "minimal"; JStr "index"; JStr "js"] →
      getImportModuleSpecifierEndingPreference config = JStr "auto"))
  ∧ (getJsxAttributeCompletionStyle config
       ∈ [JStr "braces"; JStr "none"; JStr "auto"]
     ∧ (jsx ∈ [JStr "braces"; JStr "none"] →
        getJsxAttributeCompletionStyle config = jsx)
     ∧ (jsx ∉ [JStr "braces"; JStr "none"] →
        getJsxAttributeCompletionStyle config = JStr "auto"))
  ∧ (getInlayParameterNameHintsPreference config
       ∈ [JStr "none"; JStr "literals"; JStr "all"; JUndefined]
     ∧ (hints ∈ [JStr "none"; JStr "literals"; JStr "all"] →
        getInlayParameterNameHintsPreference config = hints)
     ∧ (hints ∉ [JStr "none"; JStr "literals"; JStr "all"] →
        getInlayParameterNameHintsPreference config = JUndefined)).
Proof.
  intros ending jsx hints.
  unfold getImportModuleSpecifierEndingPreference, getJsxAttributeCompletionStyle,
    getInlayParameterNameHintsPreference.
  fold ending jsx hints.
  split; [|split].
  - destruct (strict_eq ending (JStr "minimal")) eqn:E1;
      [apply strict_eq_true in E1; rewrite E1; set_solver|].
    destruct (strict_eq ending (JStr "index")) eqn:E2;
      [apply strict_eq_true in E2; rewrite E2; set_solver|].
    destruct (strict_eq ending (JStr "js")) eqn:E3;
      [apply strict_eq_true in E3; rewrite E3; set_solver|].
    split; [set_solver|]. split; [|done]. intros Hin.
    repeat (apply elem_of_cons in Hin as [-> | Hin];
            [by rewrite strict_eq_refl in *|]).
    by apply elem_of_nil in Hin.
  - destruct (strict_eq jsx (JStr "braces")) eqn:E1;
      [apply strict_eq_true in E1; rewrite E1; set_solver|].
    destruct (strict_eq jsx (JStr "none")) eqn:E2;
      [apply strict_eq_true in E2; rewrite E2; set_solver|].
    split; [set_solver|]. split; [|done]. intros Hin.
    repeat (apply elem_of_cons in Hin as [-> | Hin];
            [by rewrite strict_eq_refl in *|]).
    by apply elem_of_nil in Hin.
  - destruct (strict_eq hints (JStr "none")) eqn:E1;
      [apply strict_eq_true in E1; rewrite E1; set_solver|].
    destruct (strict_eq hints (JStr "literals")) eqn:E2;
      [apply strict_eq_true in E2; rewrite E2; set_solver|].
    destruct (strict_eq hints (JStr "all")) eqn:E3;
      [apply strict_eq_true in E3; rewrite E3; set_solver|].
    split; [set_solver|]. split; [|done]. intros Hin.
    repeat (apply elem_of_cons in Hin as [-> | Hin];
            [by rewrite strict_eq_refl in *|]).
    by apply elem_of_nil in Hin.
Qed.

Lemma enumerated_settings_are_sanitised_witness :
  getImportModuleSpecifierEndingPreference
    (single_setting "importModuleSpecifierEnding" (JStr "js")) = JStr "js"
  ∧ getJsxAttributeCompletionStyle
      (single_setting "jsxAttributeCompletionStyle" (JStr "Braces")) = JStr "auto"
  ∧ getInlayParameterNameHintsPreference
      (single_setting "inlayHints.parameterNames.enabled" (JBool true)) = JUndefined.
Proof.
  split; [|split].
  - destruct (enumerated_settings_are_sanitised
                (single_setting "importModuleSpecifierEnding" (JStr "js")))
      as ((_ & H & _) & _ & _).
    apply H. do 2 apply list_elem_of_further. apply list_elem_of_here.
  - destruct (enumerated_settings_are_sanitised
                (single_setting "jsxAttributeCompletionStyle" (JStr "Braces")))
      as (_ & (_ & _ & H) & _).
    apply H. intros Hin.
    repeat (apply elem_of_cons in Hin as [Hin | Hin]; [discriminate Hin|]).
    by apply elem_of_nil in Hin.
  - destruct (enumerated_settings_are_sanitised
                (single_setting "inlayHints.parameterNames.enabled" (JBool true)))
      as (_ & _ & (_ & _ & H)).
    apply H. intros Hin.
    repeat (apply elem_of_cons in Hin as [Hin | Hin]; [discriminate Hin|]).
    by apply elem_of_nil in Hin.
Defined.

(** X18: the inlay hints always have the same seven properties.
    [includeInlayParameterNameHintsWhenArgumentMatchesName] is a boolean, the
    negation of the setting suppressWhenArgumentMatchesName: [false] when
    that setting is unset and [true] exactly when it is set to a falsy value.
    The five toggles are the stored values, [false] when unset;
    [includeInlayFunctionParameterTypeHints] is the one read from
    'inlayHints.parameterTypes.enabled'. *)
Theorem getInlayHintsPreferences_fields (config : WorkspaceConfiguration) :
  let hints := obj_literal (getInlayHintsPreferences config) in
  let suppress :=
    config_get config "inlayHints.parameterNames.suppressWhenArgumentMatchesName" in
  Object_keys hints
  = [ "includeInlayParameterNameHints";
      "includeInlayParameterNameHintsWhenArgumentMatchesName";
      "includeInlayFunctionParameterTypeHints"; "includeInlayVariableTypeHints";
      "includeInlayPropertyDeclarationTypeHints";
      "includeInlayFunctionLikeReturnTypeHints";
      "includeInlayEnumMemberValueHints" ]
  ∧ (suppress = JUndefined →
     obj_get hints "includeInlayParameterNameHintsWhenArgumentMatchesName"
     = JBool false)
  ∧ (suppress ≠ JUndefined →
     obj_get hints "includeInlayParameterNameHintsWhenArgumentMatchesName"
     = JBool (negb (truthy suppress)))
  ∧ obj_get hints "includeInlayFunctionParameterTypeHints"
    = config_get_or config "inlayHints.parameterTypes.enabled" (JBool false)
  ∧ obj_get hints "includeInlayVariableTypeHints"
    = config_get_or config "inlayHints.variableTypes.enabled" (JBool false)
  ∧ obj_get hints "includeInlayPropertyDeclarationTypeHints"
    = config_get_or config "inlayHints.propertyDeclarationTypes.enabled" (JBool false)
  ∧ obj_get hints "includeInlayFunctionLikeReturnTypeHints"
    = config_get_or config "inlayHints.functionLikeReturnTypes.enabled" (JBool false)
  ∧ obj_get hints "includeInlayEnumMemberValueHints"
    = config_get_or config "inlayHints.enumMemberValues.enabled" (JBool false).
Proof.
  intros hints suppress. split; [reflexivity|].
  split; [|split; [|repeat split]].
  - intros Hunset.
    change (obj_get hints "includeInlayParameterNameHintsWhenArgumentMatchesName")
      with (JBool (negb (truthy (config_get_or config
              "inlayHints.parameterNames.suppressWhenArgumentMatchesName"
              (JBool true))))).
    unfold config_get_or. unfold suppress, config_get in Hunset. by rewrite Hunset.
  - intros Hset.
    change (obj_get hints "includeInlayParameterNameHintsWhenArgumentMatchesName")
      with (JBool (negb (truthy (config_get_or config
              "inlayHints.parameterNames.suppressWhenArgumentMatchesName"
              (JBool true))))).
    unfold config_get_or. unfold suppress, config_get in *.
    by destruct (cfg_lookup config _).
Qed.

Lemma getInlayHintsPreferences_fields_witness :
  obj_get
    (obj_literal (getInlayHintsPreferences
       (single_setting "inlayHints.parameterNames.suppressWhenArgumentMatchesName"
          (JBool false))))
    "includeInlayParameterNameHintsWhenArgumentMatchesName" = JBool true
  ∧ obj_get
      (obj_literal (getInlayHintsPreferences (single_setting "other" JNull)))
      "includeInlayParameterNameHintsWhenArgumentMatchesName" = JBool false.
Proof.
  split.
  - destruct (getInlayHintsPreferences_fields
                (single_setting
                   "inlayHints.parameterNames.suppressWhenArgumentMatchesName"
                   (JBool false))) as (_ & _ & H & _).
    apply H. vm_compute. discriminate.
  - destruct (getInlayHintsPreferences_fields (single_setting "other" JNull))
      as (_ & H & _).
    apply H. reflexivity.
Defined.

(** ** Which settings a snapshot depends on *)

(** X19: a snapshot depends on the language id of the document only through
    the test "starts with 'typescript'", and on the settings store only
    through the four sections of the language so chosen (the language itself
    and its '.format', '.preferences' and '.suggest' sections): the sections
    of the other language never influence it. *)
Theorem getFileOptions_footprint workspace1 workspace2 version options
    (document1 document2 : TextDocument) :
  let language :=
    if isTypeScriptDocument (languageId document1) then "typescript"
    else "javascript" in
  uri document1 = uri document2 →
  isTypeScriptDocument (languageId document1)
    = isTypeScriptDocument (languageId document2) →
  (∀ section resource,
     section ∈ [language; (language ++ ".format")%string;
                (language ++ ".preferences")%string;
                (language ++ ".suggest")%string] →
     getConfiguration workspace1 section resource
     = getConfiguration workspace2 section resource) →
  getFileOptions workspace1 version options document1
  = getFileOptions workspace2 version options document2.
Proof.
  intros language Huri Hlang Hsections.
  unfold getFileOptions. rewrite <- Hlang, <- Huri. fold language.
  assert (isTypeScriptDocument language
          = isTypeScriptDocument (languageId document1)) as Hidem.
  { unfold language. by destruct (isTypeScriptDocument (languageId document1)). }
  f_equal.
  - unfold getFormatOptions. rewrite Hsections; [done|]. set_solver.
  - unfold getPreferences, getCompleteOptions. rewrite Hidem. fold language.
    rewrite !(Hsections language), !(Hsections (language ++ ".preferences")%string),
      !(Hsections (language ++ ".suggest")%string) by set_solver.
    done.
Qed.

Lemma getFileOptions_footprint_witness :
  getFileOptions
    (workspace_with "javascript.format" "insertSpaceAfterConstructor" (JBool true))
    (mkAPI 4 5 0) (mkFormatOptions (JNum 2) (JBool true)) doc_a
  = getFileOptions unset_workspace (mkAPI 4 5 0)
      (mkFormatOptions (JNum 2) (JBool true))
      (mkDocument "file:///a.ts" "typescriptreact").
Proof.
  apply (getFileOptions_footprint
           (workspace_with "javascript.format" "insertSpaceAfterConstructor" (JBool true))
           unset_workspace (mkAPI 4 5 0) (mkFormatOptions (JNum 2) (JBool true))
           doc_a (mkDocument "file:///a.ts" "typescriptreact")).
  - reflexivity.
  - reflexivity.
  - intros section resource Hin.
    repeat (apply elem_of_cons in Hin as [-> | Hin]; [reflexivity|]).
    by apply elem_of_nil in Hin.
Defined.

(** ** LanguageProvider: forwarded diagnostics *)

Lemma List_filter_sublist {A : Type} (f : A → bool) (l : list A) :
  List.filter f l `sublist_of` l.
Proof.
  induction l as [|x l IH]; simpl; [constructor|].
  destruct (f x); by constructor.
Qed.

Lemma elem_of_List_filter {A : Type} (f : A → bool) (l : list A) (x : A) :
  x ∈ List.filter f l ↔ x ∈ l ∧ f x = true.
Proof. rewrite !list_elem_of_In. apply filter_In. Qed.

Lemma keep_diagnostic_dropped (showUnused showDeprecated : JsValue)
    (diag : Diagnostic) :
  keep_diagnostic showUnused showDeprecated diag = false →
  (truthy showUnused = false ∧ truthy (reportUnnecessary diag) = true
   ∧ severity diag = DiagnosticSeverity.Information)
  ∨ (truthy showDeprecated = false ∧ truthy (reportDeprecated diag) = true
     ∧ severity diag = DiagnosticSeverity.Hint).
Proof.
  unfold keep_diagnostic.
  destruct (negb (truthy showUnused) && _) eqn:E1.
  - intros _. left. apply andb_true_iff in E1 as [H1 H2].
    apply andb_true_iff in H2 as [H2 H3].
    apply negb_true_iff in H1. by apply strict_eq_true in H3.
  - destruct (negb (truthy showDeprecated) && _) eqn:E2; [|done].
    intros _. right. apply andb_true_iff in E2 as [H1 H2].
    apply andb_true_iff in H2 as [H2 H3].
    apply negb_true_iff in H1. by apply strict_eq_true in H3.
Qed.

(** X20: what [diagnosticsReceived] forwards is the received list with some
    diagnostics left out, in the received order; a diagnostic is left out
    only if it is flagged unnecessary, has severity Information and the
    setting showUnused is set to a falsy value, or is flagged deprecated, has
    severity Hint and showDeprecated is set to a falsy value.  Errors and
    warnings are therefore always forwarded. *)
Theorem diagnosticsReceived_drops_only_flagged workspace (id file : string)
    (diagnostics : list Diagnostic) :
  let config := getConfiguration workspace id (Some file) in
  let forwarded := diagnosticsReceived workspace id file diagnostics in
  forwarded `sublist_of` diagnostics
  ∧ (∀ diag, diag ∈ diagnostics → diag ∉ forwarded →
       (truthy (config_get config "showUnused") = false
        ∧ config_get config "showUnused" ≠ JUndefined
        ∧ truthy (reportUnnecessary diag) = true
        ∧ severity diag = DiagnosticSeverity.Information)
       ∨ (truthy (config_get config "showDeprecated") = false
          ∧ config_get config "showDeprecated" ≠ JUndefined
          ∧ truthy (reportDeprecated diag) = true
          ∧ severity diag = DiagnosticSeverity.Hint))
  ∧ (∀ diag, diag ∈ diagnostics →
       severity diag = DiagnosticSeverity.Error
       ∨ severity diag = DiagnosticSeverity.Warning →
       diag ∈ forwarded).
Proof.
  intros config forwarded. unfold forwarded, diagnosticsReceived. fold config.
  set (showUnused := config_get_or config "showUnused" (JBool true)).
  set (showDeprecated := config_get_or config "showDeprecated" (JBool true)).
  assert (∀ key, truthy (config_get_or config key (JBool true)) = false →
            truthy (config_get config key) = false
            ∧ config_get config key ≠ JUndefined) as Hset.
  { intros key. unfold config_get_or, config_get.
    destruct (cfg_lookup config key); done. }
  split; [apply List_filter_sublist|]. split.
  - intros diag Hin Hout.
    destruct (keep_diagnostic showUnused showDeprecated diag) eqn:E.
    + exfalso. apply Hout. by apply elem_of_List_filter.
    + apply keep_diagnostic_dropped in E as [(H1 & H2 & H3) | (H1 & H2 & H3)].
      * left. apply Hset in H1 as [? ?]. done.
      * right. apply Hset in H1 as [? ?]. done.
  - intros diag Hin Hsev. apply elem_of_List_filter. split; [done|].
    unfold keep_diagnostic.
    destruct Hsev as [-> | ->]; cbn; by rewrite !andb_false_r.
Qed.

Lemma diagnosticsReceived_drops_only_flagged_witness :
  mkDiagnostic "unused variable" DiagnosticSeverity.Error (JBool true) JUndefined
  ∈ diagnosticsReceived (workspace_with "typescript" "showUnused" (JBool false))
      "typescript" "file:///a.ts"
      [ mkDiagnostic "unused import" DiagnosticSeverity.Information (JBool true) JUndefined;
        mkDiagnostic "unused variable" DiagnosticSeverity.Error (JBool true) JUndefined ].
Proof.
  destruct (diagnosticsReceived_drops_only_flagged
              (workspace_with "typescript" "showUnused" (JBool false))
              "typescript" "file:///a.ts"
              [ mkDiagnostic "unused import" DiagnosticSeverity.Information
                  (JBool true) JUndefined;
                mkDiagnostic "unused variable" DiagnosticSeverity.Error
                  (JBool true) JUndefined ]) as (_ & _ & H).
  apply H.
  - apply list_elem_of_further, list_elem_of_here.
  - by left.
Defined.

(** X21: with showUnused and showDeprecated unset, or set to truthy values,
    every received diagnostic is forwarded; and in any case forwarding what
    was forwarded once leaves it as it is. *)
Theorem diagnosticsReceived_default_and_idempotent workspace (id file : string)
    (diagnostics : list Diagnostic) :
  let config := getConfiguration workspace id (Some file) in
  (truthy (config_get_or config "showUnused" (JBool true)) = true →
   truthy (config_get_or config "showDeprecated" (JBool true)) = true →
   diagnosticsReceived workspace id file diagnostics = diagnostics)
  ∧ (config_get config "showUnused" = JUndefined →
     config_get config "showDeprecated" = JUndefined →
     diagnosticsReceived workspace id file diagnostics = diagnostics)
  ∧ diagnosticsReceived workspace id file
      (diagnosticsReceived workspace id file diagnostics)
    = diagnosticsReceived workspace id file diagnostics.
Proof.
  intros config.
  assert (truthy (config_get_or config "showUnused" (JBool true)) = true →
          truthy (config_get_or config "showDeprecated" (JBool true)) = true →
          diagnosticsReceived workspace id file diagnostics = diagnostics) as Hall.
  { intros H1 H2. unfold diagnosticsReceived. fold config.
    induction diagnostics as [|diag rest IH]; [done|]. cbn [List.filter].
    unfold keep_diagnostic at 1. rewrite H1, H2. cbn. by rewrite IH. }
  split; [exact Hall|]. split.
  - intros H1 H2. apply Hall; unfold config_get_or;
      unfold config_get in H1, H2; by rewrite ?H1, ?H2.
  - clear Hall. unfold diagnosticsReceived. fold config.
    induction diagnostics as [|diag rest IH]; [done|]. cbn [List.filter].
    destruct (keep_diagnostic _ _ diag) eqn:E; [|exact IH].
    cbn [List.filter]. by rewrite E, IH.
Qed.

Lemma diagnosticsReceived_default_and_idempotent_witness :
  diagnosticsReceived unset_workspace "typescript" "file:///a.ts"
    [ mkDiagnostic "unused import" DiagnosticSeverity.Information (JBool true) JUndefined;
      mkDiagnostic "old api" DiagnosticSeverity.Hint JUndefined (JBool true) ]
  = [ mkDiagnostic "unused import" DiagnosticSeverity.Information (JBool true) JUndefined;
      mkDiagnostic "old api" DiagnosticSeverity.Hint JUndefined (JBool true) ].
Proof.
  destruct (diagnosticsReceived_default_and_idempotent unset_workspace
              "typescript" "file:///a.ts"
              [ mkDiagnostic "unused import" DiagnosticSeverity.Information
                  (JBool true) JUndefined;
                mkDiagnostic "old api" DiagnosticSeverity.Hint JUndefined
                  (JBool true) ]) as (_ & H & _).
  apply H; reflexivity.
Defined.

(** ** LanguageProvider: registration by version *)

Lemma gte_trans (a b c : API) :
  APIv.gte a b = true → APIv.gte b c = true → APIv.gte a c = true.
Proof.
  destruct a as [a1 a2 a3], b as [b1 b2 b3], c as [c1 c2 c3].
  unfold APIv.gte. cbn [major minor patch].
  repeat match goal with
         | |- context [Nat.ltb ?x ?y] => destruct (Nat.ltb_spec x y)
         | |- context [Nat.leb ?x ?y] => destruct (Nat.leb_spec x y)
         end; intros; try done; lia.
Qed.

Lemma register_if_mono (c1 c2 : bool) (r : Registration) :
  (c1 = true → c2 = true) →
  register_if c1 r `sublist_of` register_if c2 r.
Proof.
  intros H. destruct c1; [by rewrite H|]. apply sublist_nil_l.
Qed.

(** X22: registration is monotone in the version.  With the same host, the
    same settings and the same description, everything [registerProviders]
    registers under a version is registered, in the same order, under every
    later version. *)
Theorem registerProviders_monotone workspace languages (thresholds : Thresholds)
    (id : string) (older newer : API) :
  APIv.gte newer older = true →
  registerProviders workspace languages thresholds older id
    `sublist_of` registerProviders workspace languages thresholds newer id.
Proof.
  intros Hle.
  assert (∀ t, APIv.gte older t = true → APIv.gte newer t = true) as Hup
    by (intros t; by apply gte_trans).
  assert (∀ t (l : list Registration),
            (if APIv.gte older t then l else [])
              `sublist_of` (if APIv.gte newer t then l else [])) as Hseg.
  { intros t l. destruct (APIv.gte older t) eqn:E; [by rewrite (Hup t E)|].
    apply sublist_nil_l. }
  unfold registerProviders.
  repeat (apply sublist_app;
          [first [ done
                 | apply Hseg
                 | apply register_if_mono; rewrite !andb_true_iff;
                   intros; intuition auto
                 | idtac ] |]).
  - destruct (bool_decide _); [|done].
    apply register_if_mono. rewrite !andb_true_iff. intros [? ?]. auto.
  - apply Hseg.
Qed.

Lemma registerProviders_monotone_witness :
  registerProviders unset_workspace (mkLanguages true true true true)
    (mkThresholds (mkAPI 2 0 6) (mkAPI 2 2 0) (mkAPI 2 3 0) (mkAPI 2 4 0)
       (mkAPI 2 8 0) (mkAPI 2 9 0) (mkAPI 3 0 0) (mkAPI 3 5 0) (mkAPI 3 7 0)
       (mkAPI 3 8 0) (mkAPI 4 4 0))
    (mkAPI 2 8 3) "typescript"
  `sublist_of`
  registerProviders unset_workspace (mkLanguages true true true true)
    (mkThresholds (mkAPI 2 0 6) (mkAPI 2 2 0) (mkAPI 2 3 0) (mkAPI 2 4 0)
       (mkAPI 2 8 0) (mkAPI 2 9 0) (mkAPI 3 0 0) (mkAPI 3 5 0) (mkAPI 3 7 0)
       (mkAPI 3 8 0) (mkAPI 4 4 0))
    (mkAPI 4 5 0) "typescript".
Proof.
  apply registerProviders_monotone. reflexivity.
Defined.

Lemma conditional_segment_sublist (c : bool) (l : list Registration) :
  (if c then l else []) `sublist_of` l.
Proof. destruct c; [done | apply sublist_nil_l]. Qed.

Lemma register_if_sublist (c : bool) (r : Registration) :
  register_if c r `sublist_of` [r].
Proof. apply conditional_segment_sublist. Qed.

Lemma all_registrations_NoDup (id : string) : NoDup (all_registrations id).
Proof.
  apply (NoDup_fmap_1 registration_rank). cbn [fmap list_fmap all_registrations
    registration_rank]. apply (bool_decide_unpack _). by vm_compute.
Qed.

(** X23: whatever the version, the host and the settings, [registerProviders]
    makes the seventeen unconditional registrations, makes no registration
    outside the thirty-one it knows, keeps the order of the source and never
    registers the same thing twice. *)
Theorem registerProviders_bounds workspace languages (thresholds : Thresholds)
    (version : API) (id : string) :
  let registered := registerProviders workspace languages thresholds version id in
  unconditional_registrations id `sublist_of` registered
  ∧ registered `sublist_of` all_registrations id
  ∧ (17 ≤ length registered ≤ 31)%nat
  ∧ NoDup registered.
Proof.
  intros registered.
  assert (unconditional_registrations id `sublist_of` registered) as Hlow.
  { unfold registered, registerProviders.
    change (unconditional_registrations id) with
      ([ CompletionItemProvider ("tsc-" ++ id);
         JsDocCompletionProvider ("tsc-" ++ id ++ "-jsdoc") ]
       ++ [] ++ [ DefinitionProvider; TypeDefinitionProvider; ImplementationProvider;
                  ReferenceProvider; HoverProvider; DocumentHighlight;
                  SignatureHelpProvider; DocumentSymbolProvider; RenameProvider;
                  DocumentFormatProvider; DocumentRangeFormatProvider;
                  OnTypeFormattingEditProvider; InstallModuleProvider ]
       ++ [] ++ [] ++ [] ++ [] ++ []
       ++ [ QuickfixProvider; ImportfixProvider ]
       ++ [] ++ [] ++ [] ++ [] ++ []).
    repeat (apply sublist_app; [first [done | apply sublist_nil_l]|]).
    apply sublist_nil_l. }
  assert (registered `sublist_of` all_registrations id) as Hup.
  { unfold registered, registerProviders.
    change (all_registrations id) with
      ([ CompletionItemProvider ("tsc-" ++ id);
         JsDocCompletionProvider ("tsc-" ++ id ++ "-jsdoc") ]
       ++ [DirectiveCommentCompletionProvider (id ++ "-directive")]
       ++ [ DefinitionProvider; TypeDefinitionProvider; ImplementationProvider;
            ReferenceProvider; HoverProvider; DocumentHighlight;
            SignatureHelpProvider; DocumentSymbolProvider; RenameProvider;
            DocumentFormatProvider; DocumentRangeFormatProvider;
            OnTypeFormattingEditProvider; InstallModuleProvider ]
       ++ [CallHierarchyProvider]
       ++ ([DocumentSemanticTokensProvider] ++ [DocumentRangeSemanticTokensProvider])
       ++ [UpdateImportsOnFileRenameHandler]
       ++ [Folding; OrganizeImportsCodeActionProvider]
       ++ [RefactorProvider]
       ++ [ QuickfixProvider; ImportfixProvider ]
       ++ [ReferencesCodeLensProvider] ++ [ImplementationsCodeLensProvider]
       ++ [SmartSelection] ++ [TagClosing]
       ++ [TypeScriptInlayHintsProvider; InlayHintsProviderRegistration]).
    repeat (apply sublist_app;
            [first [ done
                   | apply register_if_sublist
                   | apply conditional_segment_sublist
                   | idtac ] |]).
    - destruct (APIv.gte version (v370 thresholds)); [|apply sublist_nil_l].
      apply sublist_app; apply register_if_sublist.
    - destruct (bool_decide _); [apply register_if_sublist | apply sublist_nil_l].
    - destruct (APIv.gte version (v440 thresholds)); [|apply sublist_nil_l].
      apply conditional_segment_sublist. }
  split; [exact Hlow|]. split; [exact Hup|]. split.
  - apply sublist_length in Hlow, Hup.
    change (length (unconditional_registrations id)) with 17 in Hlow.
    change (length (all_registrations id)) with 31 in Hup. lia.
  - eapply sublist_NoDup; [apply all_registrations_NoDup | exact Hup].
Qed.

Lemma registerProviders_bounds_witness :
  length (registerProviders unset_workspace bare_host thresholds_by_name
            (mkAPI 1 0 0) "typescript") = 17.
Proof.
  destruct (registerProviders_bounds unset_workspace bare_host thresholds_by_name
              (mkAPI 1 0 0) "typescript") as (Hlow & _ & _ & _).
  apply sublist_length in Hlow. apply Nat.le_antisymm; [|exact Hlow].
  vm_compute. repeat constructor.
Defined.

Lemma elem_of_rank_filter (x : Registration) (l : list Registration) :
  x ∈ l ↔
  x ∈ List.filter (fun y => Nat.eqb (registration_rank y) (registration_rank x)) l.
Proof.
  rewrite elem_of_List_filter, Nat.eqb_refl. split; [done | by intros [? _]].
Qed.

Lemma filter_if {A : Type} (f : A → bool) (c : bool) (l1 l2 : list A) :
  List.filter f (if c then l1 else l2)
  = if c then List.filter f l1 else List.filter f l2.
Proof. by destruct c. Qed.

Lemma if_same {A : Type} (c : bool) (x : A) : (if c then x else x) = x.
Proof. by destruct c. Qed.

(** Membership of a registration is decided by the segment of
    [registerProviders] that has its rank. *)
Ltac by_rank :=
  rewrite elem_of_rank_filter; unfold registerProviders, register_if;
  repeat (first [rewrite List.filter_app | rewrite filter_if]);
  cbn [List.filter registration_rank Nat.eqb];
  rewrite ?if_same; cbn [app].

(** X24: the three registrations that depend on a setting.  The handler for
    imports on file rename is registered exactly when the description id is
    'javascript' or 'typescript', the version is at least [v290] and the
    setting updateImportsOnFileMove.enable is truthy; the references code
    lens exactly when the version is at least [v206] and
    referencesCodeLens.enable is truthy; the implementations code lens
    exactly when the version is at least [v220] and
    implementationsCodeLens.enable is truthy. *)
Theorem registerProviders_setting_gates workspace languages
    (thresholds : Thresholds) (version : API) (id : string) :
  let registered := registerProviders workspace languages thresholds version id in
  let conf := getConfiguration workspace id None in
  (UpdateImportsOnFileRenameHandler ∈ registered
   ↔ id ∈ ["javascript"; "typescript"]
     ∧ APIv.gte version (v290 thresholds) = true
     ∧ truthy (config_get conf "updateImportsOnFileMove.enable") = true)
  ∧ (ReferencesCodeLensProvider ∈ registered
     ↔ APIv.gte version (v206 thresholds) = true
       ∧ truthy (config_get conf "referencesCodeLens.enable") = true)
  ∧ (ImplementationsCodeLensProvider ∈ registered
     ↔ APIv.gte version (v220 thresholds) = true
       ∧ truthy (config_get conf "implementationsCodeLens.enable") = true).
Proof.
  intros registered conf. unfold registered, conf.
  change (getConfiguration workspace id None)
    with (getLanguageConfiguration workspace id).
  split; [|split]; by_rank.
  - destruct (decide (id ∈ ["javascript"; "typescript"])) as [Hid | Hid].
    + rewrite (bool_decide_eq_true_2 _ Hid).
      destruct (APIv.gte version (v290 thresholds)), (truthy _); cbn [andb app];
        rewrite ?list_elem_of_singleton, ?elem_of_nil;
        intuition (try discriminate).
    + rewrite (bool_decide_eq_false_2 _ Hid), elem_of_nil. intuition.
  - destruct (APIv.gte version (v206 thresholds)), (truthy _); cbn [andb app];
      rewrite ?list_elem_of_singleton, ?elem_of_nil;
      intuition (try discriminate).
  - destruct (APIv.gte version (v220 thresholds)), (truthy _); cbn [andb app];
      rewrite ?list_elem_of_singleton, ?elem_of_nil;
      intuition (try discriminate).
Qed.

Lemma registerProviders_setting_gates_witness :
  ReferencesCodeLensProvider
  ∈ registerProviders (workspace_with "typescript" "referencesCodeLens.enable" (JBool true))
      bare_host thresholds_by_name (mkAPI 4 5 0) "typescript"
  ∧ UpdateImportsOnFileRenameHandler
    ∉ registerProviders
        (workspace_with "typescriptreact" "updateImportsOnFileMove.enable" (JBool true))
        bare_host thresholds_by_name (mkAPI 4 5 0) "typescriptreact".
Proof.
  split.
  - apply (registerProviders_setting_gates
             (workspace_with "typescript" "referencesCodeLens.enable" (JBool true))
             bare_host thresholds_by_name (mkAPI 4 5 0) "typescript").
    split; reflexivity.
  - intros Hin.
    apply (registerProviders_setting_gates
             (workspace_with "typescriptreact" "updateImportsOnFileMove.enable"
                (JBool true))
             bare_host thresholds_by_name (mkAPI 4 5 0) "typescriptreact") in Hin.
    destruct Hin as [Hid _].
    repeat (apply elem_of_cons in Hid as [Hid | Hid]; [discriminate Hid|]).
    by apply elem_of_nil in Hid.
Defined.

(** X25: the registrations that need a function of the host.  The call
    hierarchy and the two semantic tokens providers are registered exactly
    when the version reaches their threshold and the host has the function;
    without it they are skipped silently.  The inlay hints provider and its
    registration are there exactly when the version is at least [v440] and
    the host has [registerInlayHintsProvider]; an error is logged, once,
    exactly when the version is at least [v440] and the host lacks it. *)
Theorem registerProviders_host_gates workspace languages
    (thresholds : Thresholds) (version : API) (id : string) :
  let registered := registerProviders workspace languages thresholds version id in
  let errors := registerProviders_errors languages thresholds version in
  (CallHierarchyProvider ∈ registered
   ↔ APIv.gte version (v380 thresholds) = true
     ∧ registerCallHierarchyProvider languages = true)
  ∧ (DocumentSemanticTokensProvider ∈ registered
     ↔ APIv.gte version (v370 thresholds) = true
       ∧ registerDocumentSemanticTokensProvider languages = true)
  ∧ (DocumentRangeSemanticTokensProvider ∈ registered
     ↔ APIv.gte version (v370 thresholds) = true
       ∧ registerDocumentRangeSemanticTokensProvider languages = true)
  ∧ (TypeScriptInlayHintsProvider ∈ registered
     ↔ APIv.gte version (v440 thresholds) = true
       ∧ registerInlayHintsProvider languages = true)
  ∧ (InlayHintsProviderRegistration ∈ registered
     ↔ APIv.gte version (v440 thresholds) = true
       ∧ registerInlayHintsProvider languages = true)
  ∧ (errors ≠ []
     ↔ APIv.gte version (v440 thresholds) = true
       ∧ registerInlayHintsProvider languages = false)
  ∧ (length errors ≤ 1)%nat.
Proof.
  intros registered errors. unfold registered, errors, registerProviders_errors.
  split; [|split; [|split; [|split; [|split; [|split]]]]].
  - by_rank.
    destruct (APIv.gte version (v380 thresholds)),
      (registerCallHierarchyProvider languages); cbn [andb app];
      rewrite ?list_elem_of_singleton, ?elem_of_nil;
      intuition (try discriminate).
  - by_rank.
    destruct (APIv.gte version (v370 thresholds)),
      (registerDocumentSemanticTokensProvider languages); cbn [andb app];
      rewrite ?list_elem_of_singleton, ?elem_of_nil;
      intuition (try discriminate).
  - by_rank.
    destruct (APIv.gte version (v370 thresholds)),
      (registerDocumentRangeSemanticTokensProvider languages); cbn [andb app];
      rewrite ?list_elem_of_singleton, ?elem_of_nil;
      intuition (try discriminate).
  - by_rank.
    destruct (APIv.gte version (v440 thresholds)),
      (registerInlayHintsProvider languages); cbn [andb app];
      rewrite ?list_elem_of_singleton, ?elem_of_nil;
      intuition (try discriminate).
  - by_rank.
    destruct (APIv.gte version (v440 thresholds)),
      (registerInlayHintsProvider languages); cbn [andb app];
      rewrite ?list_elem_of_singleton, ?elem_of_nil;
      intuition (try discriminate).
  - destruct (APIv.gte version (v440 thresholds)),
      (registerInlayHintsProvider languages);
      intuition (try discriminate; try done).
  - destruct (APIv.gte version (v440 thresholds)),
      (registerInlayHintsProvider languages); cbn; lia.
Qed.

Lemma registerProviders_host_gates_witness :
  (InlayHintsProviderRegistration
   ∉ registerProviders unset_workspace bare_host thresholds_by_name (mkAPI 4 5 0)
       "typescript")
  ∧ (registerProviders_errors bare_host thresholds_by_name (mkAPI 4 5 0) ≠ []).
Proof.
  destruct (registerProviders_host_gates unset_workspace bare_host
              thresholds_by_name (mkAPI 4 5 0) "typescript")
    as (_ & _ & _ & _ & Hreg & Herr & _).
  split.
  - intros Hin. apply Hreg in Hin. destruct Hin as [_ Hin]. discriminate Hin.
  - apply Herr. split; reflexivity.
Defined.
